(** * Affarsverken waste collection client: a shallow embedding of [sensor.py]

    The development follows the layout of the Python module:

    - Python values as they come out of [json.load] and [response.json()],
      with Python's truthiness, [dict.get] and item assignment;
    - dates, and the parser behind [datetime.strptime(s, "%Y-%m-%d")];
    - the world the client runs in: the cache file on disk, the clock, the
      vendor's HTTP endpoints, each behind an oracle that a theorem
      quantifies over;
    - the helpers [_load_cache_data] and [_save_cache_data], the methods of
      [AffarsverkenWasteApiClient] and the coordinator's update function
      [async_update_data_for_address], in a state-and-exception monad;
    - the properties of the client.

    Text is taken to be ASCII, but for the lower case of the identifiers,
    which knows the letters of Latin-1 in UTF-8.  Log calls leave no trace
    in the model: the logger is write-only for the program. *)

From Stdlib Require Import ZArith String Ascii List Bool Lia.
Import ListNotations.

Local Open Scope string_scope.
Local Open Scope Z_scope.
Set Warnings "-register-all".

(** ** Python values *)

(** The values [json.load] produces (JSON numbers are restricted to
    integers), which are also the values the client passes around: [VNone]
    is Python's [None], a [VDict] is a [dict] with string keys in insertion
    order. *)
Inductive value : Type :=
| VNone
| VBool (b : bool)
| VInt (n : Z)
| VStr (s : string)
| VList (l : list value)
| VDict (kvs : list (string * value)).

(** The exceptions that occur in the module.  [UpdateFailed] carries its
    cause: the two messages raised inside the [try] block of
    [async_update_data_for_address], and the wrapper its [except Exception]
    clause raises around whatever it caught.  [UnicodeDecodeError] and
    [RecursionError] are the two that reading the cache file can raise
    past the handler of [_load_cache_data]. *)
Inductive exn : Type :=
| ValueError
| TypeError
| AttributeError
| UnicodeDecodeError
| RecursionError
| UpdateFailed_fetch
| UpdateFailed_no_dates
| UpdateFailed_from (cause : exn).

Inductive result (A : Type) : Type :=
| Ret (a : A)
| Raise (e : exn).
Arguments Ret {A} a.
Arguments Raise {A} e.

Definition is_raise {A} (r : result A) : bool :=
  match r with Ret _ => false | Raise _ => true end.

(** [bool(v)]. *)
Definition truthy (v : value) : bool :=
  match v with
  | VNone => false
  | VBool b => b
  | VInt n => negb (n =? 0)
  | VStr s => negb (s =? "")%string
  | VList l => match l with [] => false | _ :: _ => true end
  | VDict kvs => match kvs with [] => false | _ :: _ => true end
  end.

Fixpoint assoc {A} (k : string) (kvs : list (string * A)) : option A :=
  match kvs with
  | [] => None
  | (k', v) :: rest => if (k' =? k)%string then Some v else assoc k rest
  end.

(** [d[k] = v] on the entries of a dict: an existing key keeps its place. *)
Fixpoint assoc_set {A} (k : string) (v : A) (kvs : list (string * A))
  : list (string * A) :=
  match kvs with
  | [] => [(k, v)]
  | (k', v') :: rest =>
      if (k' =? k)%string then (k', v) :: rest
      else (k', v') :: assoc_set k v rest
  end.

(** [v.get(k, default)]: only a dict has the method. *)
Definition py_get_default (v : value) (k : string) (default : value)
  : result value :=
  match v with
  | VDict kvs =>
      Ret (match assoc k kvs with Some x => x | None => default end)
  | _ => Raise AttributeError
  end.

(** [v.get(k)]. *)
Definition py_get (v : value) (k : string) : result value :=
  py_get_default v k VNone.

(** [v[k] = x] for a string key [k]; the client only ever does it on a
    dict. *)
Definition py_setitem (v : value) (k : string) (x : value) : result value :=
  match v with
  | VDict kvs => Ret (VDict (assoc_set k x kvs))
  | _ => Raise TypeError
  end.

(** ** Keys of the result dictionary of [parse_collection_dates]

    The titles used as keys are whatever truthy value the vendor sent.
    Lists and dicts are unhashable; [True] and [1] are the same key. *)
Definition hashable (v : value) : bool :=
  match v with
  | VList _ | VDict _ => false
  | _ => true
  end.

Definition key_eqb (a b : value) : bool :=
  match a, b with
  | VNone, VNone => true
  | VStr s, VStr t => (s =? t)%string
  | VInt n, VInt m => n =? m
  | VBool x, VBool y => Bool.eqb x y
  | VBool x, VInt m => (if x then 1 else 0) =? m
  | VInt n, VBool y => n =? (if y then 1 else 0)
  | _, _ => false
  end.

Section KeyedDict.
Context {A : Type}.

Fixpoint kd_get (k : value) (d : list (value * A)) : option A :=
  match d with
  | [] => None
  | (k', v) :: rest => if key_eqb k' k then Some v else kd_get k rest
  end.

(** [d[k] = v]: the value of an equal key is replaced where it stands,
    a new key goes to the end. *)
Fixpoint kd_set (k : value) (v : A) (d : list (value * A))
  : list (value * A) :=
  match d with
  | [] => [(k, v)]
  | (k', v') :: rest =>
      if key_eqb k' k then (k', v) :: rest
      else (k', v') :: kd_set k v rest
  end.
End KeyedDict.

(** ** Dates and [strptime] *)

Record date : Type := mkDate { year : Z; month : Z; day : Z }.

Definition is_leap (y : Z) : bool :=
  ((y mod 4 =? 0) && negb (y mod 100 =? 0)) || (y mod 400 =? 0).

Definition days_in_month (y m : Z) : Z :=
  if m =? 2 then (if is_leap y then 29 else 28)
  else if (m =? 4) || (m =? 6) || (m =? 9) || (m =? 11) then 30
  else 31.

(** The check of the [date] constructor ([MINYEAR = 1], [MAXYEAR = 9999]). *)
Definition valid_date (y m d : Z) : bool :=
  (1 <=? y) && (y <=? 9999) && (1 <=? m) && (m <=? 12) &&
  (1 <=? d) && (d <=? days_in_month y m).

Definition code (c : ascii) : Z := Z.of_nat (nat_of_ascii c).

Definition in_range (lo hi : ascii) (c : ascii) : bool :=
  (code lo <=? code c) && (code c <=? code hi).

Definition is_digit (c : ascii) : bool := in_range "0" "9" c.

Definition digit (c : ascii) : Z := code c - 48.

(** [%Y] is the group [\d\d\d\d]. *)
Definition match_Y (cs : list ascii) : option (Z * list ascii) :=
  match cs with
  | a :: b :: c :: d :: rest =>
      if is_digit a && is_digit b && is_digit c && is_digit d
      then Some (1000 * digit a + 100 * digit b + 10 * digit c + digit d, rest)
      else None
  | _ => None
  end.

(** [%m] is the group [1[0-2]|0[1-9]|[1-9]], alternatives tried in that
    order.  The separator that follows is not a digit, so no second
    alternative succeeds where the first one matched and the separator
    failed. *)
Definition match_m (cs : list ascii) : option (Z * list ascii) :=
  match cs with
  | a :: rest =>
      match rest with
      | b :: rest' =>
          if Ascii.eqb a "1" && in_range "0" "2" b
          then Some (10 + digit b, rest')
          else if Ascii.eqb a "0" && in_range "1" "9" b
          then Some (digit b, rest')
          else if in_range "1" "9" a then Some (digit a, rest) else None
      | [] => if in_range "1" "9" a then Some (digit a, rest) else None
      end
  | [] => None
  end.

(** [%d] is the group [3[0-1]|[1-2]\d|0[1-9]|[1-9]| [1-9]]. *)
Definition match_d (cs : list ascii) : option (Z * list ascii) :=
  match cs with
  | a :: rest =>
      match rest with
      | b :: rest' =>
          if Ascii.eqb a "3" && in_range "0" "1" b
          then Some (30 + digit b, rest')
          else if in_range "1" "2" a && is_digit b
          then Some (10 * digit a + digit b, rest')
          else if Ascii.eqb a "0" && in_range "1" "9" b
          then Some (digit b, rest')
          else if in_range "1" "9" a then Some (digit a, rest)
          else if Ascii.eqb a " " && in_range "1" "9" b
          then Some (digit b, rest')
          else None
      | [] => if in_range "1" "9" a then Some (digit a, rest) else None
      end
  | [] => None
  end.

Definition match_dash (cs : list ascii) : option (list ascii) :=
  match cs with
  | c :: rest => if Ascii.eqb c "-" then Some rest else None
  | [] => None
  end.

(** [datetime.strptime(s, "%Y-%m-%d").date()] on a string; [None] stands
    for the [ValueError] it raises when the text does not match the format,
    when text is left over, or when the numbers are not a calendar date. *)
Definition strptime_ymd (s : string) : option date :=
  match match_Y (list_ascii_of_string s) with
  | Some (y, r1) =>
      match match_dash r1 with
      | Some r2 =>
          match match_m r2 with
          | Some (m, r3) =>
              match match_dash r3 with
              | Some r4 =>
                  match match_d r4 with
                  | Some (d, []) =>
                      if valid_date y m d then Some (mkDate y m d) else None
                  | _ => None
                  end
              | None => None
              end
          | None => None
          end
      | None => None
      end
  | None => None
  end.

(** The shape the specification names: four digits, a dash, two digits, a
    dash, two digits, and nothing else. *)
Definition exact_yyyy_mm_dd (s : string) : bool :=
  match list_ascii_of_string s with
  | [y1; y2; y3; y4; s1; m1; m2; s2; d1; d2] =>
      is_digit y1 && is_digit y2 && is_digit y3 && is_digit y4 &&
      Ascii.eqb s1 "-" && is_digit m1 && is_digit m2 &&
      Ascii.eqb s2 "-" && is_digit d1 && is_digit d2
  | _ => false
  end.

(** [str.strip()]: the ASCII characters for which [str.isspace] holds are
    tab to carriage return, the four separators 28 to 31 and the space. *)
Definition is_space (c : ascii) : bool :=
  ((9 <=? code c) && (code c <=? 13)) ||
  ((28 <=? code c) && (code c <=? 32)).

Fixpoint lstrip (cs : list ascii) : list ascii :=
  match cs with
  | c :: rest => if is_space c then lstrip rest else cs
  | [] => []
  end.

Definition strip (s : string) : string :=
  string_of_list_ascii
    (rev (lstrip (rev (lstrip (list_ascii_of_string s))))).

(** ** Datetimes

    A [datetime] is its wall-clock reading, counted in microseconds from the
    epoch, and its [tzinfo]: [None] for a naive value, else the offset from
    UTC in microseconds.  Aware values are compared, and subtracted, as
    instants. *)
Record datetime : Type := mkDatetime { wall : Z; tzinfo : option Z }.

Definition instant (t : datetime) : Z :=
  wall t - match tzinfo t with Some off => off | None => 0 end.

(** [if t.tzinfo is None: t = t.replace(tzinfo=UTC)]. *)
Definition assume_utc (t : datetime) : datetime :=
  match tzinfo t with
  | None => mkDatetime (wall t) (Some 0)
  | Some _ => t
  end.

(** An aware datetime in UTC at a given instant, as [datetime.now(UTC)] and
    [datetime.fromtimestamp(_, tz=UTC)] build. *)
Definition utc (us : Z) : datetime := mkDatetime us (Some 0).

Definition microseconds_per_second : Z := 1000000.
Definition minutes (n : Z) : Z := n * 60 * microseconds_per_second.
Definition hours (n : Z) : Z := n * 3600 * microseconds_per_second.
Definition days (n : Z) : Z := n * 86400 * microseconds_per_second.

(** [BUILDING_CACHE_LIFETIME = timedelta(days=30)]. *)
Definition BUILDING_CACHE_LIFETIME : Z := days 30.

(** [t + timedelta]. *)
Definition dt_add (t : datetime) (delta : Z) : datetime :=
  mkDatetime (wall t + delta) (tzinfo t).

(** ** Library functions the module calls

    What the token library says about a token text: the [try] block around
    [jwt.decode] ends with an expiration instant taken from the [exp] claim,
    or finds no such claim, or is left by an exception (a [DecodeError] or
    any other one: both handlers do the same). *)
Inductive jwt_outcome : Type :=
| ExpClaim (us : Z)
| NoExpClaim
| DecodeFailure.

(** The three library functions are parameters of the model:
    [datetime.fromisoformat] ([None] for its [ValueError]),
    [datetime.isoformat], and [jwt.decode] followed by
    [datetime.fromtimestamp]. *)
Record PyLib : Type := mkPyLib {
  fromisoformat : string -> option datetime;
  isoformat : datetime -> string;
  jwt_exp : string -> jwt_outcome
}.

(** ** The world around the client *)

(** What the cache file holds, when there is one: a text that [json.load]
    decodes to a value; a text it rejects with [JSONDecodeError]; bytes
    that are not text in the encoding of the file, on which the read inside
    [json.load] raises [UnicodeDecodeError]; or a text nested deeper than
    the interpreter's recursion limit, on which [json.load] raises
    [RecursionError]. *)
Inductive content : Type :=
| Json (doc : value)
| Invalid
| Undecodable
| TooDeep.

(** How an attempt to write the cache file ends: well; with an [IOError]
    from [open], which leaves the file as it was; or with an [IOError] after
    [open(path, 'w')] has emptied the file and before the whole text is on
    disk, which leaves a truncated text there. *)
Inductive write_outcome : Type :=
| Written
| OpenFails
| WriteFails.

(** The three calls the client makes.  The search and the waste call carry
    the bearer token they were made with. *)
Inductive request : Type :=
| Login
| Search (bearer : value) (address : string)
| Waste (bearer : value) (query_param : value).

(** What [requests] makes of a call: a [RequestException] (no connection,
    or the status check of [raise_for_status]), or a response with its text
    and, when the text is JSON, the value [response.json()] returns; where
    it is not, [response.json()] raises a [RequestException] too. *)
Inductive response : Type :=
| RequestException
| Response (text : string) (json : option value).

(** The environment answers by position: [clock k] is the k-th reading of
    the clock in microseconds, [read_error k] tells whether the k-th read of
    the cache file fails, [write_outcome_at k] how the k-th write ends, and
    [server k r] is the answer to request [r] when [k] calls were made
    before it. *)
Record Env : Type := mkEnv {
  clock : nat -> Z;
  read_error : nat -> bool;
  write_outcome_at : nat -> write_outcome;
  server : nat -> request -> response
}.

(** The state the client changes: the cache file, how often it has
    consulted each oracle, the calls it has made (oldest first), and the two
    attributes of the client object. *)
Record World : Type := mkWorld {
  disk : option content;
  clock_reads : nat;
  file_reads : nat;
  file_writes : nat;
  calls : list request;
  _auth_token : value;
  _token_expiration_time : option datetime
}.

Definition set_disk (d : option content) (w : World) : World :=
  mkWorld d (clock_reads w) (file_reads w) (file_writes w) (calls w)
          (_auth_token w) (_token_expiration_time w).

Definition tick_clock (w : World) : World :=
  mkWorld (disk w) (S (clock_reads w)) (file_reads w) (file_writes w)
          (calls w) (_auth_token w) (_token_expiration_time w).

Definition tick_read (w : World) : World :=
  mkWorld (disk w) (clock_reads w) (S (file_reads w)) (file_writes w)
          (calls w) (_auth_token w) (_token_expiration_time w).

Definition tick_write (w : World) : World :=
  mkWorld (disk w) (clock_reads w) (file_reads w) (S (file_writes w))
          (calls w) (_auth_token w) (_token_expiration_time w).

Definition add_call (r : request) (w : World) : World :=
  mkWorld (disk w) (clock_reads w) (file_reads w) (file_writes w)
          (calls w ++ [r]) (_auth_token w) (_token_expiration_time w).

Definition set_token (tok : value) (exp : option datetime) (w : World)
  : World :=
  mkWorld (disk w) (clock_reads w) (file_reads w) (file_writes w)
          (calls w) tok exp.

(** ** The monad: state passing, with Python's exceptions *)

Definition M (A : Type) : Type := World -> result A * World.

Definition ret {A} (a : A) : M A := fun w => (Ret a, w).

Definition raise {A} (e : exn) : M A := fun w => (Raise e, w).

Definition bind {A B} (m : M A) (k : A -> M B) : M B :=
  fun w =>
    match m w with
    | (Ret a, w') => k a w'
    | (Raise e, w') => (Raise e, w')
    end.

(** A pure computation that may raise, run inside the monad. *)
Definition lift {A} (r : result A) : M A := fun w => (r, w).

Notation "x <- m ;; k" := (bind m (fun x => k))
  (at level 61, m at next level, right associativity).
Notation "m ;;; k" := (bind m (fun _ => k))
  (at level 61, right associativity).

(** ** The module *)

(** [parse_collection_dates] does not touch the world.  The loop body, one
    service entry at a time, over the dictionary built so far. *)
Definition parse_service (collection_dates : list (value * date))
  (service : value) : result (list (value * date)) :=
  match py_get service "title" with
  | Raise e => Raise e
  | Ret title =>
      match py_get service "nextPickup" with
      | Raise e => Raise e
      | Ret next_pickup_str =>
          if negb (truthy title && truthy next_pickup_str)
          then Ret collection_dates
          else if negb (truthy next_pickup_str)
          then Ret collection_dates
          else
            match next_pickup_str with
            | VStr s =>
                match strptime_ymd s with
                | Some collection_date =>
                    if hashable title
                    then Ret (kd_set title collection_date collection_dates)
                    else Raise TypeError
                | None => Ret collection_dates
                end
            | _ => Raise TypeError
            end
      end
  end.

Fixpoint parse_services (collection_dates : list (value * date))
  (services : list value) : result (list (value * date)) :=
  match services with
  | [] => Ret collection_dates
  | service :: rest =>
      match parse_service collection_dates service with
      | Ret collection_dates' => parse_services collection_dates' rest
      | Raise e => Raise e
      end
  end.

Definition parse_collection_dates (data : value)
  : result (list (value * date)) :=
  match py_get data "services" with
  | Raise e => Raise e
  | Ret (VList services) => parse_services [] services
  | Ret _ => Ret []
  end.

Section Client.
Variable L : PyLib.
Variable E : Env.

(** [datetime.now(UTC)]. *)
Definition now_utc : M datetime :=
  fun w => (Ret (utc (clock E (clock_reads w))), tick_clock w).

(** [int(datetime.now().timestamp() * 1000)], the cache-busting parameter
    of the two GET calls; it is left out of [request]. *)
Definition cache_buster : M Z :=
  fun w => (Ret (clock E (clock_reads w) / 1000), tick_clock w).

(** One call through [requests], with the status check and, for the GET
    calls, the decoding of the body. *)
Definition http (r : request) : M response :=
  fun w => (Ret (server E (length (calls w)) r), add_call r w).

Definition _load_cache_data : M value :=
  fun w =>
    match disk w with
    | None => (Ret (VDict []), w)
    | Some c =>
        if read_error E (file_reads w)
        then (Ret (VDict []), tick_read w)
        else
          match c with
          | Json doc => (Ret doc, tick_read w)
          | Invalid => (Ret (VDict []), tick_read w)
          | Undecodable => (Raise UnicodeDecodeError, tick_read w)
          | TooDeep => (Raise RecursionError, tick_read w)
          end
    end.

Definition _save_cache_data (data : value) : M unit :=
  fun w =>
    match write_outcome_at E (file_writes w) with
    | Written => (Ret tt, set_disk (Some (Json data)) (tick_write w))
    | OpenFails => (Ret tt, tick_write w)
    | WriteFails => (Ret tt, set_disk (Some Invalid) (tick_write w))
    end.

(** [datetime.fromisoformat(v)], then [replace(tzinfo=UTC)] on a naive
    result. *)
Definition parse_timestamp (v : value) : M datetime :=
  match v with
  | VStr s =>
      match fromisoformat L s with
      | Some t => ret (assume_utc t)
      | None => raise ValueError
      end
  | _ => raise TypeError
  end.

Definition _get_auth_token : M value :=
  cache_data <- _load_cache_data ;;
  cached_token <- lift (py_get cache_data "token") ;;
  expiration_str <- lift (py_get cache_data "token_expiration_time") ;;
  token_expiration_time <-
    (if truthy expiration_str
     then t <- parse_timestamp expiration_str ;; ret (Some t)
     else ret None) ;;
  still_valid <-
    (if truthy cached_token
     then match token_expiration_time with
          | Some t => now <- now_utc ;; ret (instant now <? instant t)
          | None => ret false
          end
     else ret false) ;;
  if still_valid
  then fun w =>
         (Ret cached_token, set_token cached_token token_expiration_time w)
  else
    resp <- http Login ;;
    match resp with
    | RequestException => ret VNone
    | Response text _ =>
        let token := strip text in
        if (token =? "")%string then ret VNone
        else
          new_token_expiration_time <-
            match jwt_exp L token with
            | ExpClaim us => ret (dt_add (utc us) (- minutes 5))
            | NoExpClaim | DecodeFailure =>
                now <- now_utc ;; ret (dt_add now (hours 1))
            end ;;
          cache_data1 <- lift (py_setitem cache_data "token" (VStr token)) ;;
          cache_data2 <-
            lift (py_setitem cache_data1 "token_expiration_time"
                    (VStr (isoformat L new_token_expiration_time))) ;;
          _save_cache_data cache_data2 ;;;
          fun w =>
            (Ret (VStr token),
             set_token (VStr token) (Some new_token_expiration_time) w)
    end.

(** The cache lookup of [search_building_id]: the cached [query_param]
    when the entry is there, complete and younger than the lifetime. *)
Definition cached_query_param (buildings_cache : value) (address : string)
  : M (option value) :=
  cached_building_info <- lift (py_get buildings_cache address) ;;
  if truthy cached_building_info
  then
    last_updated_str <- lift (py_get cached_building_info "last_updated") ;;
    query_param <- lift (py_get cached_building_info "query_param") ;;
    if truthy last_updated_str && truthy query_param
    then
      last_updated <- parse_timestamp last_updated_str ;;
      now <- now_utc ;;
      if instant now - instant last_updated <? BUILDING_CACHE_LIFETIME
      then ret (Some query_param)
      else ret None
    else ret None
  else ret None.

Definition search_building_id (address : string) : M value :=
  auth_token <- _get_auth_token ;;
  if negb (truthy auth_token) then ret VNone
  else
    cache_data <- _load_cache_data ;;
    buildings_cache <-
      lift (py_get_default cache_data "buildings" (VDict [])) ;;
    hit <- cached_query_param buildings_cache address ;;
    match hit with
    | Some query_param => ret query_param
    | None =>
        cache_buster ;;;
        resp <- http (Search auth_token address) ;;
        match resp with
        | Response _ (Some (VList (first_result :: _))) =>
            query_param <- lift (py_get first_result "query") ;;
            if negb (truthy query_param) then ret VNone
            else
              now <- now_utc ;;
              buildings_cache' <-
                lift (py_setitem buildings_cache address
                        (VDict [("query_param", query_param);
                                ("last_updated", VStr (isoformat L now))])) ;;
              cache_data' <-
                lift (py_setitem cache_data "buildings" buildings_cache') ;;
              _save_cache_data cache_data' ;;;
              ret query_param
        | _ => ret VNone
        end
    end.

Definition get_waste_data (address : string) : M value :=
  auth_token <- _get_auth_token ;;
  if negb (truthy auth_token) then ret VNone
  else
    query_param <- search_building_id address ;;
    if negb (truthy query_param) then ret VNone
    else
      cache_buster ;;;
      resp <- http (Waste auth_token query_param) ;;
      match resp with
      | Response _ (Some data) => ret data
      | _ => ret VNone
      end.

(** The [try] block of [async_update_data_for_address]. *)
Definition update_body (target_address : string)
  : M (list (value * date) * value) :=
  waste_data <- get_waste_data target_address ;;
  if negb (truthy waste_data) then raise UpdateFailed_fetch
  else
    parsed_dates <- lift (parse_collection_dates waste_data) ;;
    match parsed_dates with
    | [] => raise UpdateFailed_no_dates
    | _ :: _ => ret (parsed_dates, waste_data)
    end.

(** The result [{"parsed_dates": ..., "raw_data": ...}] is the pair of the
    two; whatever the block raises comes out as an [UpdateFailed]. *)
Definition async_update_data_for_address (target_address : string)
  : M (list (value * date) * value) :=
  fun w =>
    match update_body target_address w with
    | (Ret r, w') => (Ret r, w')
    | (Raise err, w') => (Raise (UpdateFailed_from err), w')
    end.
End Client.

(** ** A reference library, for running the model

    An executable instance of [PyLib] for the examples: the ISO-8601 texts
    [isoformat] writes ([YYYY-MM-DDTHH:MM:SS], then six digits of
    microseconds when there are any, then the offset) and their parser, and
    a table of what the token library finds in the tokens of an example.
    The parser knows these texts only; Python's accepts more. *)
Module Reference.

Definition and_then {A B} (o : option A) (k : A -> option B) : option B :=
  match o with Some a => k a | None => None end.

(** Days from the epoch to a civil date, and back. *)
Definition days_from_civil (y m d : Z) : Z :=
  let y' := if m <=? 2 then y - 1 else y in
  let era := y' / 400 in
  let yoe := y' - era * 400 in
  let doy := (153 * (if 2 <? m then m - 3 else m + 9) + 2) / 5 + d - 1 in
  let doe := yoe * 365 + yoe / 4 - yoe / 100 + doy in
  era * 146097 + doe - 719468.

Definition civil_from_days (z : Z) : Z * Z * Z :=
  let z' := z + 719468 in
  let era := z' / 146097 in
  let doe := z' - era * 146097 in
  let yoe := (doe - doe / 1460 + doe / 36524 - doe / 146096) / 365 in
  let doy := doe - (365 * yoe + yoe / 4 - yoe / 100) in
  let mp := (5 * doy + 2) / 153 in
  let d := doy - (153 * mp + 2) / 5 + 1 in
  let m := if mp <? 10 then mp + 3 else mp - 9 in
  ((if m <=? 2 then yoe + era * 400 + 1 else yoe + era * 400), m, d).

Definition digit_char (n : Z) : ascii :=
  ascii_of_nat (Z.to_nat (48 + n mod 10)).

Fixpoint pad (width : nat) (n : Z) (tail : string) : string :=
  match width with
  | O => tail
  | S width' => pad width' (n / 10) (String (digit_char n) tail)
  end.

Definition offset_text (off : Z) : string :=
  let a := Z.abs off / minutes 1 in
  let sign := if off <? 0 then "-" else "+" in
  (sign ++ pad 2 (a / 60) (":" ++ pad 2 (a mod 60) ""))%string.

Definition isoformat (t : datetime) : string :=
  let day_us := days 1 in
  let '(y, m, d) := civil_from_days (wall t / day_us) in
  let us := wall t mod day_us in
  let secs := us / microseconds_per_second in
  let frac := us mod microseconds_per_second in
  let fraction := if frac =? 0 then "" else ("." ++ pad 6 frac "")%string in
  let h := secs / 3600 in
  let mi := secs / 60 mod 60 in
  let sec := secs mod 60 in
  (pad 4 y ("-" ++ pad 2 m ("-" ++ pad 2 d ("T" ++
   pad 2 h (":" ++ pad 2 mi (":" ++
   pad 2 sec
     (fraction ++
      match tzinfo t with
      | Some off => offset_text off
      | None => ""
      end)))))))%string.

Fixpoint read_digits (k : nat) (acc : Z) (cs : list ascii)
  : option (Z * list ascii) :=
  match k with
  | O => Some (acc, cs)
  | S k' =>
      match cs with
      | c :: rest =>
          if is_digit c then read_digits k' (10 * acc + digit c) rest
          else None
      | [] => None
      end
  end.

Definition expect (c : ascii) (cs : list ascii) : option (list ascii) :=
  match cs with
  | c' :: rest => if Ascii.eqb c' c then Some rest else None
  | [] => None
  end.

(** The offset at the end of the text: nothing (a naive value), or a sign,
    two digits, a colon and two digits. *)
Definition read_offset (cs : list ascii) : option (option Z) :=
  match cs with
  | [] => Some None
  | sign :: rest =>
      if Ascii.eqb sign "+" || Ascii.eqb sign "-" then
        and_then (read_digits 2 0 rest) (fun '(h, r1) =>
        and_then (expect ":" r1) (fun r2 =>
        and_then (read_digits 2 0 r2) (fun '(mi, r3) =>
          match r3 with
          | [] =>
              if (h <? 24) && (mi <? 60)
              then Some (Some ((if Ascii.eqb sign "-" then -1 else 1)
                               * minutes (h * 60 + mi)))
              else None
          | _ :: _ => None
          end)))
      else None
  end.

Definition read_fraction (cs : list ascii) : option (Z * list ascii) :=
  match cs with
  | c :: rest =>
      if Ascii.eqb c "." then read_digits 6 0 rest else Some (0, cs)
  | [] => Some (0, cs)
  end.

Definition fromisoformat (s : string) : option datetime :=
  and_then (read_digits 4 0 (list_ascii_of_string s)) (fun '(y, r1) =>
  and_then (expect "-" r1) (fun r2 =>
  and_then (read_digits 2 0 r2) (fun '(m, r3) =>
  and_then (expect "-" r3) (fun r4 =>
  and_then (read_digits 2 0 r4) (fun '(d, r5) =>
  and_then (expect "T" r5) (fun r6 =>
  and_then (read_digits 2 0 r6) (fun '(h, r7) =>
  and_then (expect ":" r7) (fun r8 =>
  and_then (read_digits 2 0 r8) (fun '(mi, r9) =>
  and_then (expect ":" r9) (fun r10 =>
  and_then (read_digits 2 0 r10) (fun '(sec, r11) =>
  and_then (read_fraction r11) (fun '(frac, r12) =>
  and_then (read_offset r12) (fun off =>
    if valid_date y m d && (h <? 24) && (mi <? 60) && (sec <? 60)
    then Some (mkDatetime
                 (days (days_from_civil y m d) + hours h + minutes mi
                  + sec * microseconds_per_second + frac) off)
    else None))))))))))))).

(** The token library on the tokens of an example: any other text is not
    a token it can decode. *)
Definition jwt_exp (known : list (string * jwt_outcome)) (token : string)
  : jwt_outcome :=
  match assoc token known with
  | Some o => o
  | None => DecodeFailure
  end.

Definition lib (known : list (string * jwt_outcome)) : PyLib :=
  mkPyLib fromisoformat isoformat (jwt_exp known).

End Reference.

(** ** What the specification expects of the parser

    The entries the parser keeps, in the specification's words: an entry
    with a title and a [nextPickup] that is a date.  [expected_dates] is the
    mapping they make, a later entry replacing an earlier one of the same
    title. *)
Definition usable_entry (service : value) : option (value * date) :=
  match service with
  | VDict kvs =>
      match assoc "title" kvs, assoc "nextPickup" kvs with
      | Some title, Some (VStr s) =>
          if truthy title && truthy (VStr s)
          then match strptime_ymd s with
               | Some d => Some (title, d)
               | None => None
               end
          else None
      | _, _ => None
      end
  | _ => None
  end.

Definition expected_dates (services : list value) : list (value * date) :=
  fold_left
    (fun dates service =>
       match usable_entry service with
       | Some (title, d) => kd_set title d dates
       | None => dates
       end)
    services [].

(** A field of a service entry that is absent, [null] or a string. *)
Definition text_or_missing (field : option value) : bool :=
  match field with
  | None | Some VNone | Some (VStr _) => true
  | Some _ => false
  end.

(** A service entry as the vendor documents it: an object whose [title]
    and [nextPickup], where present, are strings. *)
Definition entry_ok (service : value) : bool :=
  match service with
  | VDict kvs =>
      text_or_missing (assoc "title" kvs) &&
      text_or_missing (assoc "nextPickup" kvs)
  | _ => false
  end.

(** The states of the file system in which there is no cache document to
    read: no file, a file that cannot be read, a file that is not JSON. *)
Inductive cache_unavailable (E : Env) (w : World) : Prop :=
| cache_absent : disk w = None -> cache_unavailable E w
| cache_unreadable :
    forall c, disk w = Some c -> read_error E (file_reads w) = true ->
              cache_unavailable E w
| cache_corrupt : disk w = Some Invalid -> cache_unavailable E w.

(** ** Example worlds

    The inputs of the examples below: a clock that stands at 10:00 UTC on
    10 March 2025, a disk and a vendor that behave unless said otherwise. *)
Module Examples.

Definition lib : PyLib :=
  Reference.lib [("header.payload.signature", ExpClaim 1741608000000000)].

(** 2025-03-10T10:00:00Z. *)
Definition now : Z := 1741600800000000.

Definition env (at_clock : Z) (write : write_outcome)
  (vendor : request -> response) : Env :=
  mkEnv (fun _ => at_clock) (fun _ => false) (fun _ => write)
        (fun _ => vendor).

Definition world (d : option content) : World :=
  mkWorld d 0 0 0 [] VNone None.

Definition unreachable : request -> response :=
  fun _ => RequestException.

(** The vendor of the specification's scenario. *)
Definition vendor (waste : value) (r : request) : response :=
  match r with
  | Login => Response " header.payload.signature " None
  | Search _ _ =>
      Response "" (Some (VList [VDict [("query", VStr "B123")]]))
  | Waste _ _ => Response "" (Some waste)
  end.

Definition main_st_services : value :=
  VDict [("services",
          VList [VDict [("title", VStr "Restavfall");
                        ("nextPickup", VStr "2025-03-10");
                        ("binSize", VInt 190);
                        ("binSizeUnit", VStr "L");
                        ("pickupFrequencyDescription",
                         VStr "Every 2 weeks")]])].

Definition no_services : value :=
  VDict [("services", VList []); ("address", VStr "Main St 1")].

(** A cache document with a token that expires at noon, and one with a
    building entry next to it. *)
Definition token_doc (expiration : string) : list (string * value) :=
  [("token", VStr "header.payload.signature");
   ("token_expiration_time", VStr expiration)].

Definition full_doc (expiration last_updated : string)
  : list (string * value) :=
  token_doc expiration ++
  [("buildings",
    VDict [("Main St 1",
            VDict [("query_param", VStr "B123");
                   ("last_updated", VStr last_updated)])])].

Definition noon : string := "2025-03-10T12:00:00+00:00".
Definition noon_instant : Z := 1741608000000000.

(** Thirty days before [now], and one microsecond later. *)
Definition thirty_days_ago : string := "2025-02-08T10:00:00+00:00".
Definition just_under_thirty_days_ago : string :=
  "2025-02-08T10:00:00.000001+00:00".

(** The three entries of the specification's parse example, and an entry
    whose date has a one-digit month and day. *)
Definition three_services : list value :=
  [VDict [("title", VStr "Paper"); ("nextPickup", VStr "2024-01-01")];
   VDict [("title", VStr "Glass")];
   VDict [("title", VStr "Food"); ("nextPickup", VStr "not-a-date")]].

Definition short_date_services : list value :=
  [VDict [("title", VStr "Food"); ("nextPickup", VStr "2024-1-5")]].

(** Two hours before noon. *)
Definition this_morning : string := "2025-03-10T10:00:00+00:00".

Definition old_doc : value := VDict (full_doc noon thirty_days_ago).
Definition new_doc : value := VDict (full_doc noon this_morning).

(** Worlds that start from a given cache document, and environments in
    which the vendor answers or does not. *)
Definition cached (doc : list (string * value)) : World :=
  world (Some (Json (VDict doc))).

Definition online (at_clock : Z) : Env :=
  env at_clock Written (vendor main_st_services).

Definition offline (at_clock : Z) : Env :=
  env at_clock Written unreachable.

End Examples.

(** ** The sensor entities and their identifiers *)

(** [DOMAIN] of [__init__.py]. *)
Definition DOMAIN : string := "affarsverken_waste".

Fixpoint map_string (f : ascii -> ascii) (s : string) : string :=
  match s with
  | EmptyString => EmptyString
  | String c rest => String (f c) (map_string f rest)
  end.

(** [s.replace(' ', '_')]. *)
Definition underscore (c : ascii) : ascii :=
  if Ascii.eqb c " " then "_"%char else c.

(** The lower case of an ASCII character. *)
Definition lower_char (c : ascii) : ascii :=
  if in_range "A" "Z" c then ascii_of_nat (nat_of_ascii c + 32) else c.

(** A string holds its text in UTF-8.  The capital letters of Latin-1 (the
    code points C0 to DE but for the multiplication sign D7, among them the
    Swedish A with ring, A with dots and O with dots) are written as the
    lead byte C3 and a second byte from 80 to 9E, 97 excepted; the small
    letter has the same lead byte and the second byte 32 higher. *)
Definition latin1_capital_second (c : ascii) : bool :=
  (128 <=? code c) && (code c <=? 158) && negb (code c =? 151).

Definition is_lead_c3 (c : ascii) : bool := code c =? 195.

Definition lower_byte (after_c3 : bool) (c : ascii) : ascii :=
  if after_c3 && latin1_capital_second c
  then ascii_of_nat (nat_of_ascii c + 32)
  else lower_char c.

(** [s.lower()] on text of ASCII and Latin-1 letters, byte by byte;
    [after_c3] tells that the byte before was the lead byte C3.  Letters of
    other alphabets are left as they are. *)
Fixpoint lower_from (after_c3 : bool) (s : string) : string :=
  match s with
  | EmptyString => EmptyString
  | String c rest =>
      String (lower_byte after_c3 c) (lower_from (is_lead_c3 c) rest)
  end.

Definition py_lower (s : string) : string := lower_from false s.

(** [s.replace(' ', '_').lower()], the normal form both identifiers are
    built from. *)
Definition slug (s : string) : string :=
  py_lower (map_string underscore s).

(** The identifier of a config entry, in [async_step_user]:
    [f"{DOMAIN}_{address.replace(' ', '_').lower()}"]. *)
Definition config_unique_id (address : string) : string :=
  (DOMAIN ++ "_" ++ slug address)%string.

(** [name = user_input.get(CONF_NAME, address)]. *)
Definition entry_name (name : option string) (address : string) : string :=
  match name with Some n => n | None => address end.

(** The attributes [__init__] of [AffarsverkenWasteSensor] sets. *)
Record sensor : Type := mkSensor {
  _base_name : string;
  _address : string;
  _waste_type : string;
  _attr_unique_id : string
}.

Definition sensor_unique_id (base_name address waste_type : string)
  : string :=
  (DOMAIN ++ "_" ++ slug base_name ++ "_" ++ slug address ++ "_"
   ++ slug waste_type)%string.

(** [AffarsverkenWasteSensor(name, address, waste_type, coordinator)]: the
    waste type is a key of the parsed dates, and the identifier calls
    [replace] on it, which only a string has. *)
Definition new_sensor (base_name address : string) (waste_type : value)
  : result sensor :=
  match waste_type with
  | VStr wt =>
      Ret (mkSensor base_name address wt
             (sensor_unique_id base_name address wt))
  | _ => Raise AttributeError
  end.

(** The loop of [async_setup_entry] over
    [coordinator.data["parsed_dates"].keys()], once the first refresh has
    succeeded. *)
Fixpoint setup_entities (base_name address : string)
  (parsed_dates : list (value * date)) : result (list sensor) :=
  match parsed_dates with
  | [] => Ret []
  | (waste_type, _) :: rest =>
      match new_sensor base_name address waste_type with
      | Raise e => Raise e
      | Ret s =>
          match setup_entities base_name address rest with
          | Raise e => Raise e
          | Ret entities => Ret (s :: entities)
          end
      end
  end.

(** The property [name]. *)
Definition sensor_name (s : sensor) : string :=
  (_base_name s ++ " " ++ _waste_type s)%string.

(** The property [native_value], on the data of the coordinator: the date,
    or [None]. *)
Definition native_value (s : sensor) (data : list (value * date) * value)
  : option date :=
  kd_get (VStr (_waste_type s)) (fst data).

(** [date.toordinal()]: day 1 is 1 January of year 1. *)
Definition days_before_year (y : Z) : Z :=
  (y - 1) * 365 + (y - 1) / 4 - (y - 1) / 100 + (y - 1) / 400.

Definition days_before_month (y m : Z) : Z :=
  (if m =? 1 then 0 else if m =? 2 then 31 else if m =? 3 then 59
   else if m =? 4 then 90 else if m =? 5 then 120 else if m =? 6 then 151
   else if m =? 7 then 181 else if m =? 8 then 212 else if m =? 9 then 243
   else if m =? 10 then 273 else if m =? 11 then 304 else 334)
  + (if (2 <? m) && is_leap y then 1 else 0).

Definition toordinal (d : date) : Z :=
  days_before_year (year d) + days_before_month (year d) (month d) + day d.

(** [(collection_date - today).days]. *)
Definition days_until_pickup (collection_date today : date) : Z :=
  toordinal collection_date - toordinal today.

(** What a [for] loop iterates over: the items of a list, the keys of a
    dict, the characters of a string; nothing else here is iterable. *)
Definition py_iter (v : value) : result (list value) :=
  match v with
  | VList l => Ret l
  | VDict kvs => Ret (map (fun kv => VStr (fst kv)) kvs)
  | VStr s => Ret (map (fun c => VStr (String c "")) (list_ascii_of_string s))
  | _ => Raise TypeError
  end.

(** [v == s] for a string [s]. *)
Definition equals_text (v : value) (s : string) : bool :=
  match v with
  | VStr t => (t =? s)%string
  | _ => false
  end.

(** The loop of [extra_state_attributes] over the services of the raw
    data: the bin attributes of the first service of that title. *)
Fixpoint bin_attributes (waste_type : string)
  (attributes : list (string * value)) (services : list value)
  : result (list (string * value)) :=
  match services with
  | [] => Ret attributes
  | service :: rest =>
      match py_get service "title" with
      | Raise e => Raise e
      | Ret title =>
          if equals_text title waste_type
          then
            match py_get service "binSize",
                  py_get service "binSizeUnit",
                  py_get service "pickupFrequencyDescription" with
            | Ret size, Ret unit_, Ret frequency =>
                Ret (assoc_set "pickup_frequency_description" frequency
                       (assoc_set "bin_size_unit" unit_
                          (assoc_set "bin_size" size attributes)))
            | Raise e, _, _ | _, Raise e, _ | _, _, Raise e => Raise e
            end
          else bin_attributes waste_type attributes rest
      end
  end.

Section Sensor.
(** [date.strftime] with the format [%Y-%m-%d] is the C library's; what it
    writes for a year below 1000 depends on the platform. *)
Variable strftime_ymd : date -> string.

(** The property [extra_state_attributes], given the date
    [datetime.now().date()] returns. *)
Definition extra_state_attributes (today : date) (s : sensor)
  (data : list (value * date) * value) : result (list (string * value)) :=
  let parsed_dates := fst data in
  let raw_data := snd data in
  match kd_get (VStr (_waste_type s)) parsed_dates with
  | Some collection_date =>
      let attributes :=
        [("days_until_pickup",
          VInt (days_until_pickup collection_date today));
         ("pickup_date", VStr (strftime_ymd collection_date));
         ("waste_type", VStr (_waste_type s))] in
      match py_get_default raw_data "services" (VList []) with
      | Raise e => Raise e
      | Ret services =>
          match py_iter services with
          | Raise e => Raise e
          | Ret items => bin_attributes (_waste_type s) attributes items
          end
      end
  | None => Ret []
  end.
End Sensor.

(** A date written as four, two and two digits: what [date.isoformat]
    writes, and [strftime] for the years from 1000 on. *)
Definition date_text (d : date) : string :=
  Reference.pad 4 (year d)
    ("-" ++ Reference.pad 2 (month d) ("-" ++ Reference.pad 2 (day d) "")).

(** A date before another in the calendar. *)
Definition date_lt (a b : date) : Prop :=
  year a < year b \/
  (year a = year b /\
   (month a < month b \/ (month a = month b /\ day a < day b))).

Definition is_valid (d : date) : Prop :=
  valid_date (year d) (month d) (day d) = true.

(** No two keys of a dictionary are equal as keys. *)
Fixpoint keys_distinct {A} (d : list (value * A)) : Prop :=
  match d with
  | [] => True
  | (k, _) :: rest => kd_get k rest = None /\ keys_distinct rest
  end.

(** A record of the parsed dates as a consumer relies on it: a title that is
    truthy and can be a key, and a date of the calendar. *)
Definition record_ok (r : value * date) : Prop :=
  truthy (fst r) = true /\ hashable (fst r) = true /\ is_valid (snd r).

Definition is_text (v : value) : bool :=
  match v with VStr _ => true | _ => false end.

Definition is_object (v : value) : bool :=
  match v with VDict _ => true | _ => false end.

(** The numbers two and four digits write. *)
Definition two_digits (a b : ascii) : Z := 10 * digit a + digit b.

Definition four_digits (a b c d : ascii) : Z :=
  1000 * digit a + 100 * digit b + 10 * digit c + digit d.

(** The expiration time a login gives a token: five minutes before the
    [exp] claim, or one hour after the clock reading [now] when the claim
    cannot be had. *)
Definition login_expiry (L : PyLib) (token : string) (now : Z) : Z :=
  match jwt_exp L token with
  | ExpClaim us => us - minutes 5
  | NoExpClaim | DecodeFailure => now + hours 1
  end.

(** The cache document after a login. *)
Definition with_token (L : PyLib) (kvs : list (string * value))
  (token : string) (expiry : Z) : list (string * value) :=
  assoc_set "token_expiration_time" (VStr (isoformat L (utc expiry)))
    (assoc_set "token" (VStr token) kvs).

(** A call that came back with something to use: it returned, and what it
    returned is truthy. *)
Definition succeeded (r : result value) : bool :=
  match r with
  | Ret v => truthy v
  | Raise _ => false
  end.

(** The entry the cache document holds for an address, if any. *)
Definition building_entry (kvs : list (string * value)) (address : string)
  : option value :=
  match assoc "buildings" kvs with
  | Some (VDict buildings) => assoc address buildings
  | _ => None
  end.

Definition is_waste (r : request) : bool :=
  match r with
  | Waste _ _ => true
  | _ => false
  end.

(** * Properties *)

(** ** The cache store *)

(** What the handler of [_load_cache_data] covers: when the cache file is
    absent, when reading it fails with [IOError], and when it holds a text
    that [json.load] rejects with [JSONDecodeError], the load returns the
    empty document. *)
Theorem load_cache_data_unavailable_is_empty :
  forall (E : Env) (w : World),
    cache_unavailable E w ->
    fst (_load_cache_data E w) = Ret (VDict []).
Proof.
  intros E w H. unfold _load_cache_data.
  destruct H as [Habs | c Hc Herr | Hbad].
  - rewrite Habs. reflexivity.
  - rewrite Hc, Herr. reflexivity.
  - rewrite Hbad. destruct (read_error E (file_reads w)); reflexivity.
Qed.

(** C5, where the code fails it: a cache file that can be opened and
    whose bytes are not text in its encoding makes [_load_cache_data] raise
    [UnicodeDecodeError] to its caller, and one whose text is nested too
    deep makes it raise [RecursionError]: the handler names [IOError] and
    [JSONDecodeError] only. *)
Theorem load_cache_data_raises_past_its_handler :
  forall (E : Env) (w : World),
    read_error E (file_reads w) = false ->
    (disk w = Some Undecodable ->
     _load_cache_data E w = (Raise UnicodeDecodeError, tick_read w)) /\
    (disk w = Some TooDeep ->
     _load_cache_data E w = (Raise RecursionError, tick_read w)).
Proof.
  intros E w Hr. unfold _load_cache_data.
  split; intros Hd; rewrite Hd, Hr; reflexivity.
Qed.

(** C2, as the code has it: when the write of the cache file fails,
    [_save_cache_data] returns normally; the file is as it was when [open]
    failed, and holds a truncated text when the failure came after [open]
    had emptied it. *)
Theorem save_cache_data_failure :
  forall (E : Env) (w : World) (data : value),
    write_outcome_at E (file_writes w) <> Written ->
    fst (_save_cache_data E data w) = Ret tt /\
    disk (snd (_save_cache_data E data w)) =
      match write_outcome_at E (file_writes w) with
      | WriteFails => Some Invalid
      | _ => disk w
      end.
Proof.
  intros E w data H. unfold _save_cache_data.
  destruct (write_outcome_at E (file_writes w)); [congruence | | ];
    split; reflexivity.
Qed.

(** ** The parser *)

Lemma parse_service_ok :
  forall dates service,
    entry_ok service = true ->
    parse_service dates service =
      Ret match usable_entry service with
          | Some (title, d) => kd_set title d dates
          | None => dates
          end.
Proof.
  intros dates service Hok.
  destruct service as [| | | |l|kvs]; try discriminate.
  unfold entry_ok in Hok. apply andb_prop in Hok as [Ht Hn].
  unfold parse_service, usable_entry, py_get, py_get_default.
  destruct (assoc "title" kvs) as [title|];
    destruct (assoc "nextPickup" kvs) as [np|]; simpl.
  - destruct title; try discriminate; destruct np; try discriminate; simpl;
      try reflexivity.
    + destruct (s =? "")%string; reflexivity.
    + destruct (s =? "")%string; simpl; [reflexivity|].
      destruct (s0 =? "")%string; simpl; [reflexivity|].
      destruct (strptime_ymd s0); reflexivity.
  - destruct title; try discriminate; simpl; try reflexivity.
    destruct (s =? "")%string; reflexivity.
  - reflexivity.
  - reflexivity.
Qed.

Lemma parse_services_ok :
  forall services dates,
    Forall (fun e => entry_ok e = true) services ->
    parse_services dates services =
      Ret (fold_left
             (fun dates service =>
                match usable_entry service with
                | Some (title, d) => kd_set title d dates
                | None => dates
                end)
             services dates).
Proof.
  induction services as [|e rest IH]; intros dates H.
  - reflexivity.
  - inversion H as [|? ? He Hrest]; subst. simpl.
    rewrite parse_service_ok by assumption. apply IH. assumption.
Qed.

(** Equal keys answer every comparison alike. *)
Lemma key_eqb_true_l :
  forall a b c, key_eqb a b = true -> key_eqb a c = key_eqb b c.
Proof.
  intros a b c H.
  destruct a, b; cbn [key_eqb] in H; try discriminate;
    try (apply Z.eqb_eq in H; subst);
    try (apply String.eqb_eq in H; subst);
    try (apply eqb_prop in H; subst);
    destruct c; cbn [key_eqb]; try reflexivity;
    repeat match goal with
           | x : bool |- _ => destruct x
           end; reflexivity.
Qed.

Lemma key_eqb_refl : forall k, hashable k = true -> key_eqb k k = true.
Proof.
  destruct k; simpl; intros H; try discriminate; try reflexivity.
  - apply eqb_reflx.
  - apply Z.eqb_refl.
  - apply String.eqb_refl.
Qed.

Lemma key_eqb_text :
  forall s t, key_eqb (VStr s) (VStr t) = true -> s = t.
Proof. intros s t H. apply String.eqb_eq. exact H. Qed.

Section KeyedDictFacts.
Context {A : Type}.
Implicit Types (d : list (value * A)) (k : value) (v : A).

Lemma kd_get_set_same :
  forall d k v, key_eqb k k = true -> kd_get k (kd_set k v d) = Some v.
Proof.
  induction d as [|[k' v'] rest IH]; intros k v Hk; simpl.
  - rewrite Hk. reflexivity.
  - destruct (key_eqb k' k) eqn:Hc; simpl; rewrite Hc.
    + reflexivity.
    + apply IH. exact Hk.
Qed.

Lemma kd_get_set_other :
  forall d k k' v,
    key_eqb k' k' = true -> key_eqb k' k = false ->
    kd_get k (kd_set k' v d) = kd_get k d.
Proof.
  induction d as [|[k0 v0] rest IH]; intros k k' v Hr Hne; simpl.
  - rewrite Hne. reflexivity.
  - destruct (key_eqb k0 k') eqn:Hc; simpl.
    + rewrite (key_eqb_true_l _ _ k Hc), Hne. reflexivity.
    + destruct (key_eqb k0 k); [reflexivity|]. apply IH; assumption.
Qed.

Lemma kd_set_In :
  forall d k v k1 v1,
    In (k1, v1) (kd_set k v d) ->
    In (k1, v1) d \/
    (v1 = v /\ (k1 = k \/ exists v0, In (k1, v0) d /\ key_eqb k1 k = true)).
Proof.
  induction d as [|[k0 v0] rest IH]; intros k v k1 v1 Hin; simpl in Hin.
  - destruct Hin as [Heq|[]]. inversion Heq; subst. right. auto.
  - destruct (key_eqb k0 k) eqn:Hc; simpl in Hin.
    + destruct Hin as [Heq|Hin].
      * inversion Heq; subst. right. split; [reflexivity|]. right.
        exists v0. split; [left; reflexivity | exact Hc].
      * left. right. exact Hin.
    + destruct Hin as [Heq|Hin].
      * left. left. exact Heq.
      * destruct (IH _ _ _ _ Hin) as [H|[Hv [Hk|[v2 [H2 H3]]]]].
        -- left. right. exact H.
        -- right. auto.
        -- right. split; [exact Hv|]. right. exists v2.
           split; [right; exact H2 | exact H3].
Qed.
End KeyedDictFacts.

(** The title of a usable entry, when the entry is as documented, is a
    non-empty string. *)
Lemma usable_entry_title :
  forall e t d,
    entry_ok e = true -> usable_entry e = Some (t, d) ->
    exists s, t = VStr s.
Proof.
  intros e t d Hok Hu. destruct e; try discriminate.
  unfold entry_ok in Hok. unfold usable_entry in Hu.
  destruct (assoc "title" kvs) as [title|]; [|discriminate].
  destruct (assoc "nextPickup" kvs) as [[| | |s| |]|]; try discriminate.
  apply andb_prop in Hok as [Ht _].
  destruct title; try discriminate.
  eexists.
  destruct (truthy (VStr s0) && truthy (VStr s)); [|discriminate].
  destruct (strptime_ymd s); [|discriminate].
  inversion Hu. reflexivity.
Qed.

Definition keep (dates : list (value * date)) (service : value)
  : list (value * date) :=
  match usable_entry service with
  | Some (title, d) => kd_set title d dates
  | None => dates
  end.

Lemma expected_dates_fold :
  forall services, expected_dates services = fold_left keep services [].
Proof. reflexivity. Qed.

(** Entries that follow and carry another title leave a key as it is. *)
Lemma fold_keep_other :
  forall post dates t,
    Forall (fun e => entry_ok e = true) post ->
    (forall e t' d', In e post -> usable_entry e = Some (t', d') ->
                     key_eqb t' t = false) ->
    kd_get t (fold_left keep post dates) = kd_get t dates.
Proof.
  induction post as [|e rest IH]; intros dates t Hok Hother; simpl.
  - reflexivity.
  - inversion Hok as [|? ? He Hrest]; subst.
    rewrite IH; [|assumption|intros; eapply Hother; [right|]; eassumption].
    unfold keep. destruct (usable_entry e) as [[t' d']|] eqn:Hu; [|reflexivity].
    destruct (usable_entry_title _ _ _ He Hu) as [s ->].
    apply kd_get_set_other.
    + apply String.eqb_refl.
    + eapply Hother; [left; reflexivity | exact Hu].
Qed.

(** Every pair of the result is a usable entry of the list. *)
Lemma fold_keep_In :
  forall services dates k d,
    Forall (fun e => entry_ok e = true) services ->
    (forall k0 d0, In (k0, d0) dates -> exists s, k0 = VStr s) ->
    In (k, d) (fold_left keep services dates) ->
    In (k, d) dates \/
    exists e, In e services /\ usable_entry e = Some (k, d).
Proof.
  induction services as [|e rest IH]; intros dates k d Hok Hkeys Hin;
    simpl in Hin.
  - left. exact Hin.
  - inversion Hok as [|? ? He Hrest]; subst.
    assert (Hkeys' : forall k0 d0, In (k0, d0) (keep dates e) ->
                                   exists s, k0 = VStr s).
    { intros k0 d0 H0. unfold keep in H0.
      destruct (usable_entry e) as [[t' d']|] eqn:Hu; [|eauto].
      apply kd_set_In in H0 as [H0|[_ [->|[v0 [H0 _]]]]]; eauto.
      eapply usable_entry_title; eassumption. }
    destruct (IH _ _ _ Hrest Hkeys' Hin) as [H|[e' [H1 H2]]].
    + unfold keep in H.
      destruct (usable_entry e) as [[t' d']|] eqn:Hu; [|left; exact H].
      apply kd_set_In in H as [H|[-> [->|[v0 [H0 Hk]]]]].
      * left. exact H.
      * right. exists e. split; [left; reflexivity | exact Hu].
      * right. exists e. split; [left; reflexivity|].
        destruct (Hkeys _ _ H0) as [s ->].
        destruct (usable_entry_title _ _ _ He Hu) as [s' ->].
        apply key_eqb_text in Hk. subst. exact Hu.
    + right. exists e'. split; [right; exact H1 | exact H2].
Qed.

Lemma fold_keep_app :
  forall pre post dates,
    fold_left keep (pre ++ post)%list dates
    = fold_left keep post (fold_left keep pre dates).
Proof. intros. apply fold_left_app. Qed.

(** An entry without a title or without a [nextPickup], or with an empty
    one, is not usable; neither is one whose [nextPickup] [strptime]
    rejects. *)
Lemma missing_field_not_usable :
  forall kvs,
    match assoc "title" kvs with Some t => truthy t | None => false end
    && match assoc "nextPickup" kvs with Some p => truthy p | None => false end
    = false ->
    usable_entry (VDict kvs) = None.
Proof.
  intros kvs H. unfold usable_entry.
  destruct (assoc "title" kvs) as [t|]; [|reflexivity].
  destruct (assoc "nextPickup" kvs) as [[| | |s| |]|]; try reflexivity.
  rewrite H. reflexivity.
Qed.

Lemma rejected_date_not_usable :
  forall kvs s,
    assoc "nextPickup" kvs = Some (VStr s) -> strptime_ymd s = None ->
    usable_entry (VDict kvs) = None.
Proof.
  intros kvs s Hs Hp. unfold usable_entry. rewrite Hs, Hp.
  destruct (assoc "title" kvs); [|reflexivity].
  destruct (truthy v && truthy (VStr s)); reflexivity.
Qed.

(** C8, as the code has it: on a response whose [services] entries are
    objects with string (or absent) [title] and [nextPickup],
    [parse_collection_dates] returns, without raising, the mapping of the
    usable entries: an entry that lacks a title or a [nextPickup], or whose
    [nextPickup] is rejected by [strptime] with [%Y-%m-%d], changes nothing;
    every usable entry not followed by another of its title is in the
    result with its date; and the result holds nothing else.  On the
    specification's three entries this is the mapping of Paper alone. *)
Theorem parse_collection_dates_keeps_usable_entries :
  forall (kvs : list (string * value)) (services : list value),
    assoc "services" kvs = Some (VList services) ->
    Forall (fun e => entry_ok e = true) services ->
    parse_collection_dates (VDict kvs) = Ret (expected_dates services) /\
    (forall pre e post,
        services = (pre ++ e :: post)%list -> usable_entry e = None ->
        expected_dates services = expected_dates (pre ++ post)%list) /\
    (forall pre e post t d,
        services = (pre ++ e :: post)%list -> usable_entry e = Some (t, d) ->
        (forall e' t' d', In e' post -> usable_entry e' = Some (t', d') ->
                          key_eqb t' t = false) ->
        kd_get t (expected_dates services) = Some d) /\
    (forall k d,
        In (k, d) (expected_dates services) ->
        exists e, In e services /\ usable_entry e = Some (k, d)).
Proof.
  intros kvs services Hs Hok. repeat split.
  - unfold parse_collection_dates, py_get, py_get_default. rewrite Hs.
    rewrite parse_services_ok by assumption. reflexivity.
  - intros pre e post -> Hu. rewrite !expected_dates_fold, !fold_keep_app.
    simpl. unfold keep at 2. rewrite Hu. reflexivity.
  - intros pre e post t d -> Hu Hlast.
    apply Forall_app in Hok as [_ Hok].
    inversion Hok as [|? ? He Hpost]; subst.
    rewrite expected_dates_fold, fold_keep_app. simpl.
    rewrite fold_keep_other by assumption.
    unfold keep. rewrite Hu.
    destruct (usable_entry_title _ _ _ He Hu) as [s ->].
    apply kd_get_set_same. apply String.eqb_refl.
  - intros k d Hin. rewrite expected_dates_fold in Hin.
    apply fold_keep_In in Hin as [[]|H]; [exact H|assumption|].
    intros k0 d0 [].
Qed.

(** C4, as the code has it: on every JSON object that has no [services]
    key bound to a list, [parse_collection_dates] returns the empty mapping
    and does not raise. *)
Theorem parse_collection_dates_without_services :
  forall (kvs : list (string * value)),
    (forall l, assoc "services" kvs <> Some (VList l)) ->
    parse_collection_dates (VDict kvs) = Ret [].
Proof.
  intros kvs H. unfold parse_collection_dates, py_get, py_get_default.
  destruct (assoc "services" kvs) as [[| | | |l|]|]; try reflexivity.
  exfalso. apply (H l). reflexivity.
Qed.

(** ** The token manager *)

(** The load returns the document: there is a cache file, it holds [doc],
    and this read of it does not fail. *)
Definition loads (E : Env) (w : World) (doc : value) : Prop :=
  disk w = Some (Json doc) /\ read_error E (file_reads w) = false.

(** The cache document holds a token and an expiration time: a truthy
    [token], and under [token_expiration_time] a text that
    [fromisoformat] reads as [t]. *)
Definition holds_token (L : PyLib) (kvs : list (string * value))
  (token : value) (t : datetime) : Prop :=
  assoc "token" kvs = Some token /\ truthy token = true /\
  exists s, assoc "token_expiration_time" kvs = Some (VStr s) /\
            s <> ""%string /\ fromisoformat L s = Some t.

Lemma instant_assume_utc : forall t, instant (assume_utc t) = instant t.
Proof.
  intros [wl [off|]]; unfold assume_utc, instant; simpl; lia.
Qed.

Lemma truthy_text : forall s, s <> ""%string -> truthy (VStr s) = true.
Proof.
  intros s H. simpl. destruct (String.eqb_spec s ""); [contradiction|reflexivity].
Qed.

Lemma load_cache_data_loads :
  forall E w doc,
    loads E w doc -> _load_cache_data E w = (Ret doc, tick_read w).
Proof.
  intros E w doc [Hd Hr]. unfold _load_cache_data. rewrite Hd, Hr. reflexivity.
Qed.

Lemma instant_utc : forall us, instant (utc us) = us.
Proof. intros us. unfold instant, utc. simpl. lia. Qed.

Lemma get_auth_token_cached :
  forall L E w kvs token t,
    loads E w (VDict kvs) -> holds_token L kvs token t ->
    clock E (clock_reads w) < instant t ->
    _get_auth_token L E w
    = (Ret token,
       set_token token (Some (assume_utc t)) (tick_clock (tick_read w))).
Proof.
  intros L E w kvs token t Hl (Htok & Htruthy & s & Hs & Hne & Hiso) Hlt.
  unfold _get_auth_token, bind.
  rewrite (load_cache_data_loads _ _ _ Hl).
  unfold lift, py_get, py_get_default. rewrite Htok, Hs.
  rewrite (truthy_text _ Hne). unfold parse_timestamp, bind. rewrite Hiso.
  unfold ret. rewrite Htruthy. unfold now_utc.
  rewrite instant_utc, instant_assume_utc. cbn [clock_reads tick_read].
  apply Z.ltb_lt in Hlt. rewrite Hlt. reflexivity.
Qed.

(** What follows the login call makes no further call. *)
Ltac after_login :=
  unfold http, ret, bind, lift, _save_cache_data, py_setitem, now_utc;
  repeat match goal with
         | |- context [match server ?E ?k ?r with _ => _ end] =>
             destruct (server E k r)
         | |- context [if (?a =? ?b)%string then _ else _] =>
             destruct (a =? b)%string
         | |- context [match jwt_exp ?L ?x with _ => _ end] =>
             destruct (jwt_exp L x)
         | |- context [match write_outcome_at ?E ?k with _ => _ end] =>
             destruct (write_outcome_at E k)
         end;
  try reflexivity.

Lemma get_auth_token_expired :
  forall L E w kvs token t,
    loads E w (VDict kvs) -> holds_token L kvs token t ->
    instant t <= clock E (clock_reads w) ->
    calls (snd (_get_auth_token L E w)) = (calls w ++ [Login])%list.
Proof.
  intros L E w kvs token t Hl (Htok & Htruthy & s & Hs & Hne & Hiso) Hge.
  unfold _get_auth_token, bind.
  rewrite (load_cache_data_loads _ _ _ Hl).
  unfold lift, py_get, py_get_default. rewrite Htok, Hs.
  rewrite (truthy_text _ Hne). unfold parse_timestamp, bind. rewrite Hiso.
  unfold ret. rewrite Htruthy. unfold now_utc.
  rewrite instant_utc, instant_assume_utc. cbn [clock_reads tick_read].
  apply Z.ltb_ge in Hge. rewrite Hge.
  after_login.
Qed.

(** C3: for every cache document that holds a token and an expiration
    time, [_get_auth_token] returns the cached token without any network
    call when the clock reads strictly before the expiration time, and makes
    a login call when the clock reads the expiration time or later. *)
Theorem get_auth_token_expiry_boundary :
  forall (L : PyLib) (E : Env) (w : World) (kvs : list (string * value))
         (token : value) (t : datetime),
    loads E w (VDict kvs) -> holds_token L kvs token t ->
    (clock E (clock_reads w) < instant t ->
     fst (_get_auth_token L E w) = Ret token /\
     calls (snd (_get_auth_token L E w)) = calls w) /\
    (instant t <= clock E (clock_reads w) ->
     calls (snd (_get_auth_token L E w)) = (calls w ++ [Login])%list).
Proof.
  intros L E w kvs token t Hl Ht. split.
  - intros Hlt. rewrite (get_auth_token_cached _ _ _ _ _ _ Hl Ht Hlt).
    split; reflexivity.
  - intros Hge. eapply get_auth_token_expired; eassumption.
Qed.

(** C1, where the code fails it: a cache document whose
    [token_expiration_time] is a text that [fromisoformat] rejects makes
    [_get_auth_token] raise [ValueError] to its caller. *)
Theorem get_auth_token_raises_on_malformed_expiration :
  forall (L : PyLib) (E : Env) (w : World) (kvs : list (string * value))
         (s : string),
    loads E w (VDict kvs) ->
    assoc "token_expiration_time" kvs = Some (VStr s) ->
    s <> ""%string ->
    fromisoformat L s = None ->
    fst (_get_auth_token L E w) = Raise ValueError.
Proof.
  intros L E w kvs s Hl Hs Hne Hiso.
  unfold _get_auth_token, bind.
  rewrite (load_cache_data_loads _ _ _ Hl).
  unfold lift, py_get, py_get_default. rewrite Hs.
  rewrite (truthy_text _ Hne). unfold parse_timestamp, raise. rewrite Hiso.
  reflexivity.
Qed.

(** ** The building resolver *)

(** The cache document holds a building entry for the address: under
    [buildings], an object with a truthy [query_param] and a [last_updated]
    text that [fromisoformat] reads as [tl]. *)
Definition holds_building (L : PyLib) (kvs : list (string * value))
  (address : string) (q : value) (tl : datetime) : Prop :=
  exists bkvs entry lu,
    assoc "buildings" kvs = Some (VDict bkvs) /\
    assoc address bkvs = Some (VDict entry) /\
    assoc "query_param" entry = Some q /\ truthy q = true /\
    assoc "last_updated" entry = Some (VStr lu) /\
    lu <> ""%string /\ fromisoformat L lu = Some tl.

Lemma assoc_nonempty :
  forall A k (kvs : list (string * A)) v,
    assoc k kvs = Some v -> kvs <> [].
Proof. intros A k [|p rest] v H; [discriminate|congruence]. Qed.

Lemma truthy_dict_with :
  forall k kvs v, assoc k kvs = Some v -> truthy (VDict kvs) = true.
Proof. intros k [|p rest] v H; [discriminate|reflexivity]. Qed.

(** The lookup, on an entry as [holds_building] describes it, reads the
    clock once and compares. *)
Lemma cached_query_param_entry :
  forall L E w bkvs entry lu address q tl,
    assoc address bkvs = Some (VDict entry) ->
    assoc "query_param" entry = Some q -> truthy q = true ->
    assoc "last_updated" entry = Some (VStr lu) ->
    lu <> ""%string -> fromisoformat L lu = Some tl ->
    cached_query_param L E (VDict bkvs) address w
    = (Ret (if clock E (clock_reads w) - instant tl <? BUILDING_CACHE_LIFETIME
            then Some q else None),
       tick_clock w).
Proof.
  intros L E w bkvs entry lu address q tl He Hq Htq Hlu Hne Hiso.
  unfold cached_query_param, bind, lift, py_get, py_get_default.
  rewrite He. rewrite (truthy_dict_with _ _ _ Hq). rewrite Hlu, Hq.
  rewrite (truthy_text _ Hne), Htq. cbn [andb].
  unfold parse_timestamp. rewrite Hiso. unfold ret, now_utc.
  rewrite instant_utc, instant_assume_utc.
  destruct (clock E (clock_reads w) - instant tl <? BUILDING_CACHE_LIFETIME);
    reflexivity.
Qed.

(** What follows the search call makes no further call. *)
Ltac after_search :=
  unfold cache_buster, http, ret, bind, lift, _save_cache_data, py_setitem,
    py_get, py_get_default, now_utc;
  repeat match goal with
         | |- context [match server ?E ?k ?r with _ => _ end] =>
             destruct (server E k r) as [|? [[| | | |[|[] ?]|]|]]
         | |- context [match assoc ?k ?l with _ => _ end] =>
             destruct (assoc k l)
         | |- context [if negb (truthy ?v) then _ else _] =>
             destruct (truthy v)
         | |- context [match write_outcome_at ?E ?k with _ => _ end] =>
             destruct (write_outcome_at E k)
         | |- _ => progress cbn beta iota delta [negb]
         end;
  try reflexivity.

Lemma search_building_id_cached_entry :
  forall L E w kvs token t address q tl,
    loads E w (VDict kvs) -> read_error E (S (file_reads w)) = false ->
    holds_token L kvs token t -> clock E (clock_reads w) < instant t ->
    holds_building L kvs address q tl ->
    (clock E (S (clock_reads w)) - instant tl < BUILDING_CACHE_LIFETIME ->
     search_building_id L E address w
     = (Ret q,
        tick_clock
          (tick_read
             (set_token token (Some (assume_utc t))
                (tick_clock (tick_read w)))))) /\
    (BUILDING_CACHE_LIFETIME <= clock E (S (clock_reads w)) - instant tl ->
     calls (snd (search_building_id L E address w))
     = (calls w ++ [Search token address])%list).
Proof.
  intros L E w kvs token t address q tl Hl Hr2 Ht Hlt
         (bkvs & entry & lu & Hb & He & Hq & Htq & Hlu & Hne & Hiso).
  pose proof Ht as (_ & Htruthy & _).
  assert (Hl2 : loads E (set_token token (Some (assume_utc t))
                          (tick_clock (tick_read w))) (VDict kvs)).
  { destruct Hl as [Hd Hr]. split; [exact Hd | exact Hr2]. }
  split; intros Hage;
    unfold search_building_id; unfold bind at 1;
    rewrite (get_auth_token_cached _ _ _ _ _ _ Hl Ht Hlt); rewrite Htruthy;
    cbn [negb]; unfold bind at 1;
    rewrite (load_cache_data_loads _ _ _ Hl2);
    unfold bind at 1; unfold lift at 1, py_get_default at 1; rewrite Hb;
    unfold bind at 1;
    rewrite (cached_query_param_entry _ _ _ _ _ _ _ _ _ He Hq Htq Hlu Hne Hiso);
    cbn [clock_reads tick_read tick_clock set_token].
  - apply Z.ltb_lt in Hage. rewrite Hage. reflexivity.
  - apply Z.ltb_ge in Hage. rewrite Hage.
    after_search.
Qed.

(** C7: given a valid token, for a cached building entry of the address,
    [search_building_id] makes the search call again when the entry is
    exactly 30 days old (or older), and returns the cached [query_param]
    with no network call when the entry is younger than 30 days, be it by
    one microsecond. *)
Theorem building_cache_boundary :
  forall (L : PyLib) (E : Env) (w : World) (kvs : list (string * value))
         (token : value) (t : datetime) (address : string) (q : value)
         (tl : datetime),
    loads E w (VDict kvs) -> read_error E (S (file_reads w)) = false ->
    holds_token L kvs token t -> clock E (clock_reads w) < instant t ->
    holds_building L kvs address q tl ->
    (BUILDING_CACHE_LIFETIME <= clock E (S (clock_reads w)) - instant tl ->
     calls (snd (search_building_id L E address w))
     = (calls w ++ [Search token address])%list) /\
    (clock E (S (clock_reads w)) - instant tl < BUILDING_CACHE_LIFETIME ->
     fst (search_building_id L E address w) = Ret q /\
     calls (snd (search_building_id L E address w)) = calls w).
Proof.
  intros L E w kvs token t address q tl Hl Hr2 Ht Hlt Hb.
  destruct (search_building_id_cached_entry _ _ _ _ _ _ _ _ _ Hl Hr2 Ht Hlt Hb)
    as [Hfresh Hstale].
  split.
  - exact Hstale.
  - intros Hage. rewrite (Hfresh Hage). split; reflexivity.
Qed.

(** C10: when [_get_auth_token] returns [None], [search_building_id]
    returns [None] at once: it leaves the world as [_get_auth_token] left
    it, so it neither reads the cache file again nor makes a call, and what
    the building cache holds for the address plays no part. *)
Theorem search_building_id_without_token :
  forall (L : PyLib) (E : Env) (address : string) (w : World),
    fst (_get_auth_token L E w) = Ret VNone ->
    search_building_id L E address w
    = (Ret VNone, snd (_get_auth_token L E w)).
Proof.
  intros L E address w H. unfold search_building_id, bind.
  destruct (_get_auth_token L E w) as [r w']. simpl in H. subst r.
  reflexivity.
Qed.

(** ** The refresh of one address *)

(** C9: when the fetch of a refresh returns a response and its parse
    yields no record, [async_update_data_for_address] raises
    [UpdateFailed]; when the fetch returns data and the parse yields at
    least one record, the update returns, and what it returns is the pair
    of the parsed dates and the raw data; and it returns in no other
    case. *)
Theorem update_fails_without_records :
  forall (L : PyLib) (E : Env) (address : string) (w w' : World)
         (data : value),
    get_waste_data L E address w = (Ret data, w') ->
    (parse_collection_dates data = Ret [] ->
     async_update_data_for_address L E address w
     = (Raise (UpdateFailed_from
                 (if truthy data then UpdateFailed_no_dates
                  else UpdateFailed_fetch)), w')) /\
    (forall parsed,
        truthy data = true ->
        parse_collection_dates data = Ret parsed -> parsed <> [] ->
        async_update_data_for_address L E address w
        = (Ret (parsed, data), w')) /\
    (forall r w'',
        async_update_data_for_address L E address w = (Ret r, w'') ->
        w'' = w' /\ snd r = data /\ fst r <> [] /\
        parse_collection_dates data = Ret (fst r)).
Proof.
  intros L E address w w' data Hget.
  unfold async_update_data_for_address, update_body, bind. rewrite Hget.
  split; [|split].
  - intros Hparse. destruct (truthy data); cbn [negb]; [|reflexivity].
    unfold lift. rewrite Hparse. reflexivity.
  - intros parsed Ht Hparse Hne. rewrite Ht. cbn [negb].
    unfold lift. rewrite Hparse.
    destruct parsed as [|p ps]; [contradiction|]. reflexivity.
  - intros r w''. destruct (truthy data); cbn [negb]; [|discriminate].
    unfold lift. destruct (parse_collection_dates data) as [[|p ps]|e];
      try discriminate.
    unfold ret. intros H. inversion H; subst. cbn.
    repeat split. discriminate.
Qed.

Lemma assoc_set_same :
  forall A k (v : A) kvs, assoc k (assoc_set k v kvs) = Some v.
Proof.
  induction kvs as [|[k' v'] rest IH]; simpl.
  - rewrite String.eqb_refl. reflexivity.
  - destruct (k' =? k)%string eqn:Hk; simpl; rewrite Hk; [reflexivity|exact IH].
Qed.

Lemma assoc_set_other :
  forall A k k' (v : A) kvs,
    k' <> k -> assoc k (assoc_set k' v kvs) = assoc k kvs.
Proof.
  induction kvs as [|[k0 v0] rest IH]; intros Hne; simpl.
  - destruct (String.eqb_spec k' k); [contradiction|reflexivity].
  - destruct (String.eqb_spec k0 k') as [->|Hk0]; simpl.
    + destruct (String.eqb_spec k' k); [contradiction|reflexivity].
    + destruct (k0 =? k)%string; [reflexivity|]. apply IH. exact Hne.
Qed.

(** The lookup reads the clock at most once and touches nothing else; it
    only returns on a dict. *)
Lemma cached_query_param_outcome :
  forall L E bc address w r w',
    cached_query_param L E bc address w = (r, w') ->
    (w' = w \/ w' = tick_clock w) /\
    (forall x, r = Ret x -> exists bkvs, bc = VDict bkvs).
Proof.
  intros L E bc address w r w' H.
  unfold cached_query_param, bind, lift, py_get, py_get_default,
    parse_timestamp, ret, raise, now_utc in H.
  destruct bc as [| | | | |bkvs];
    try (inversion H; subst; split; [auto | intros x Hx; discriminate]).
  repeat first
    [ progress cbn beta iota in H
    | match type of H with
      | context [match ?x with _ => _ end] =>
          lazymatch x with
          | context [match _ with _ => _ end] => fail
          | _ => destruct x
          end
      end ];
    inversion H; subst; (split; [auto | intros x Hx; eauto]).
Qed.

(** A first call that has a valid token, goes to the network and comes back
    with a [query_param] has made the search call and nothing else, and,
    its write succeeding, has left the entry in the cache file, dated with
    its last reading of the clock. *)
Lemma search_building_id_first_call :
  forall L E w kvs token t address q w1,
    loads E w (VDict kvs) -> read_error E (S (file_reads w)) = false ->
    holds_token L kvs token t -> clock E (clock_reads w) < instant t ->
    search_building_id L E address w = (Ret q, w1) ->
    truthy q = true -> calls w1 <> calls w ->
    write_outcome_at E (file_writes w) = Written ->
    exists bkvs,
      disk w1
      = Some (Json (VDict (assoc_set "buildings"
           (VDict (assoc_set address
              (VDict [("query_param", q);
                      ("last_updated",
                       VStr (isoformat L
                               (utc (clock E (pred (clock_reads w1))))))])
              bkvs))
           kvs))) /\
      calls w1 = (calls w ++ [Search token address])%list /\
      file_reads w1 = S (S (file_reads w)).
Proof.
  intros L E w kvs token t address q w1 Hl Hr2 Ht Hlt Hrun Hq Hcalls Hwr.
  pose proof Ht as (_ & Htruthy & _).
  assert (Hl2 : loads E (set_token token (Some (assume_utc t))
                          (tick_clock (tick_read w))) (VDict kvs)).
  { destruct Hl as [Hd Hr]. split; [exact Hd | exact Hr2]. }
  unfold search_building_id in Hrun. unfold bind at 1 in Hrun.
  rewrite (get_auth_token_cached _ _ _ _ _ _ Hl Ht Hlt) in Hrun.
  rewrite Htruthy in Hrun. cbn [negb] in Hrun. unfold bind at 1 in Hrun.
  rewrite (load_cache_data_loads _ _ _ Hl2) in Hrun.
  unfold bind at 1 in Hrun. unfold lift at 1, py_get_default at 1 in Hrun.
  unfold bind at 1 in Hrun.
  match type of Hrun with
  | context [cached_query_param L E ?bc address ?wb] =>
      destruct (cached_query_param L E bc address wb) as [r wc] eqn:Hc;
      destruct (cached_query_param_outcome _ _ _ _ _ _ _ Hc) as [Hwc Hbc]
  end.
  destruct r as [[q'|]|e]; [| |discriminate].
  - exfalso. unfold ret in Hrun. inversion Hrun; subst.
    apply Hcalls. destruct Hwc as [-> | ->]; reflexivity.
  - destruct (Hbc _ eq_refl) as [bkvs Hbkvs]. exists bkvs.
    rewrite Hbkvs in Hrun. clear Hc Hbc Hbkvs.
    unfold cache_buster, http, bind, lift, ret, py_get, py_get_default,
      py_setitem, now_utc, _save_cache_data in Hrun.
    destruct Hwc as [-> | ->];
      repeat first
        [ progress cbn in Hrun
        | rewrite Hwr in Hrun
        | match type of Hrun with
          | context [match ?x with _ => _ end] =>
              lazymatch x with
              | context [match _ with _ => _ end] => fail
              | _ => destruct x eqn:?
              end
          end ];
      inversion Hrun; subst; try discriminate;
      cbn; repeat split; reflexivity.
Qed.

(** C6, as the code has it: with a token in the cache that is valid at both
    calls, when the first call of [search_building_id] goes to the network,
    comes back with a [query_param] and writes the cache file, and the
    second call for the same address reads the clock less than 30 days
    after the first one dated the entry, the second call returns the same
    [query_param] from the cache file and the two calls together have made
    exactly one network call, the search of the first. *)
Theorem search_building_id_twice :
  forall (L : PyLib) (E : Env) (w0 w1 : World)
         (kvs : list (string * value)) (token : value) (t tl : datetime)
         (address : string) (q : value),
    loads E w0 (VDict kvs) -> read_error E (S (file_reads w0)) = false ->
    holds_token L kvs token t -> clock E (clock_reads w0) < instant t ->
    search_building_id L E address w0 = (Ret q, w1) ->
    truthy q = true -> calls w1 <> calls w0 ->
    write_outcome_at E (file_writes w0) = Written ->
    read_error E (file_reads w1) = false ->
    read_error E (S (file_reads w1)) = false ->
    clock E (clock_reads w1) < instant t ->
    isoformat L (utc (clock E (pred (clock_reads w1)))) <> ""%string ->
    fromisoformat L (isoformat L (utc (clock E (pred (clock_reads w1)))))
    = Some tl ->
    instant tl = clock E (pred (clock_reads w1)) ->
    clock E (S (clock_reads w1)) - clock E (pred (clock_reads w1))
    < BUILDING_CACHE_LIFETIME ->
    fst (search_building_id L E address w1) = Ret q /\
    calls (snd (search_building_id L E address w1))
    = (calls w0 ++ [Search token address])%list.
Proof.
  intros L E w0 w1 kvs token t tl address q Hl Hr2 Ht Hlt Hrun Hq Hcalls Hwr
         Hr3 Hr4 Hlt2 Hne Hiso Htl Hage.
  destruct (search_building_id_first_call
              _ _ _ _ _ _ _ _ _ Hl Hr2 Ht Hlt Hrun Hq Hcalls Hwr)
    as (bkvs & Hdisk & Hc1 & _).
  destruct Ht as (Htok & Htruthy & s & Hs & Hsne & Hsiso).
  match type of Hdisk with
  | _ = Some (Json (VDict ?kvs')) =>
      assert (Hl' : loads E w1 (VDict kvs')) by (split; assumption);
      assert (Ht' : holds_token L kvs' token t);
      [| assert (Hb' : holds_building L kvs' address q tl) ]
  end.
  - split; [|split; [exact Htruthy|exists s; split; [|split; assumption]]];
      rewrite assoc_set_other by discriminate; assumption.
  - eexists _, _, _. split; [apply assoc_set_same|].
    split; [apply assoc_set_same|]. cbn.
    repeat split; try reflexivity; assumption.
  - rewrite <- Htl in Hage.
    destruct (search_building_id_cached_entry
                _ _ _ _ _ _ _ _ _ Hl' Hr4 Ht' Hlt2 Hb') as [Hfresh _].
    rewrite (Hfresh Hage). cbn. split; [reflexivity | exact Hc1].
Qed.

(** * The properties at work

    Each property above that has a premise is applied to one of the example
    worlds; the claims of the specification that the code does not meet are
    shown to fail on an example. *)

Import Examples.

Lemma load_cache_data_unavailable_is_empty_witness :
  cache_unavailable (offline now) (world (Some Invalid)) /\
  fst (_load_cache_data (offline now) (world (Some Invalid))) = Ret (VDict []).
Proof.
  split.
  - apply cache_corrupt. reflexivity.
  - apply load_cache_data_unavailable_is_empty. apply cache_corrupt.
    reflexivity.
Defined.

Lemma load_cache_data_raises_past_its_handler_witness :
  fst (_load_cache_data (offline now) (world (Some Undecodable)))
  = Raise UnicodeDecodeError /\
  fst (_load_cache_data (offline now) (world (Some TooDeep)))
  = Raise RecursionError /\
  fst (async_update_data_for_address lib (online now) "Main St 1"
         (world (Some Undecodable)))
  = Raise (UpdateFailed_from UnicodeDecodeError).
Proof.
  destruct (load_cache_data_raises_past_its_handler (offline now)
              (world (Some Undecodable)) eq_refl) as [H1 _].
  destruct (load_cache_data_raises_past_its_handler (offline now)
              (world (Some TooDeep)) eq_refl) as [_ H2].
  rewrite (H1 eq_refl), (H2 eq_refl). repeat split.
Defined.

(** C2 fails where the write breaks off after [open]: the document that was
    on disk is gone, and the next load finds nothing. *)
Lemma save_cache_data_write_failure_loses_document :
  write_outcome_at (env now WriteFails unreachable)
    (file_writes (world (Some (Json old_doc)))) = WriteFails /\
  fst (_save_cache_data (env now WriteFails unreachable) new_doc
         (world (Some (Json old_doc)))) = Ret tt /\
  disk (snd (_save_cache_data (env now WriteFails unreachable) new_doc
               (world (Some (Json old_doc)))))
  <> disk (world (Some (Json old_doc))) /\
  fst (_load_cache_data (env now WriteFails unreachable)
         (snd (_save_cache_data (env now WriteFails unreachable) new_doc
                 (world (Some (Json old_doc)))))) = Ret (VDict []).
Proof.
  repeat split; try reflexivity. cbn. discriminate.
Qed.

Lemma save_cache_data_failure_witness :
  write_outcome_at (env now OpenFails unreachable)
    (file_writes (world (Some (Json old_doc)))) <> Written /\
  fst (_save_cache_data (env now OpenFails unreachable) new_doc
         (world (Some (Json old_doc)))) = Ret tt /\
  disk (snd (_save_cache_data (env now OpenFails unreachable) new_doc
               (world (Some (Json old_doc)))))
  = Some (Json old_doc).
Proof.
  split.
  - cbn. discriminate.
  - apply (save_cache_data_failure (env now OpenFails unreachable)
             (world (Some (Json old_doc))) new_doc).
    cbn. discriminate.
Defined.

(** C4 fails on a body that is not an object: [data.get] is not there. *)
Lemma parse_collection_dates_raises_on_non_object :
  parse_collection_dates (VList [VStr "no data"]) = Raise AttributeError /\
  parse_collection_dates (VStr "no data") = Raise AttributeError /\
  parse_collection_dates VNone = Raise AttributeError.
Proof. repeat split. Qed.

Lemma parse_collection_dates_without_services_witness :
  (forall l, assoc "services" [("services", VStr "none")] <> Some (VList l)) /\
  parse_collection_dates (VDict [("services", VStr "none")]) = Ret [].
Proof.
  split.
  - intros l H. discriminate H.
  - apply parse_collection_dates_without_services.
    intros l H. discriminate H.
Defined.

(** C8 fails on a date with a one-digit month and day: it is not of the
    shape YYYY-MM-DD, and [strptime] takes it. *)
Lemma parse_collection_dates_keeps_short_date :
  exact_yyyy_mm_dd "2024-1-5" = false /\
  parse_collection_dates (VDict [("services", VList short_date_services)])
  = Ret [(VStr "Food", mkDate 2024 1 5)].
Proof. split; reflexivity. Qed.

Lemma parse_collection_dates_keeps_usable_entries_witness :
  assoc "services" [("services", VList three_services)]
  = Some (VList three_services) /\
  Forall (fun e => entry_ok e = true) three_services /\
  parse_collection_dates (VDict [("services", VList three_services)])
  = Ret [(VStr "Paper", mkDate 2024 1 1)].
Proof.
  split; [reflexivity|]. split.
  - repeat constructor.
  - apply (parse_collection_dates_keeps_usable_entries
             [("services", VList three_services)] three_services).
    + reflexivity.
    + repeat constructor.
Defined.

Lemma loads_cached :
  forall at_clock write srv doc,
    loads (env at_clock write srv) (cached doc) (VDict doc).
Proof. intros. split; reflexivity. Qed.

Lemma holds_token_doc :
  forall rest,
    holds_token lib (token_doc noon ++ rest)
      (VStr "header.payload.signature") (utc noon_instant).
Proof.
  intros rest. split; [reflexivity|]. split; [reflexivity|].
  exists noon. repeat split. discriminate.
Qed.

Lemma holds_building_doc :
  forall last_updated at_instant,
    last_updated <> ""%string ->
    fromisoformat lib last_updated = Some (utc at_instant) ->
    holds_building lib (full_doc noon last_updated) "Main St 1"
      (VStr "B123") (utc at_instant).
Proof.
  intros last_updated at_instant Hne Hiso.
  eexists _, _, last_updated. repeat split; assumption.
Qed.

Lemma get_auth_token_expiry_boundary_witness :
  (fst (_get_auth_token lib (offline now) (cached (token_doc noon)))
   = Ret (VStr "header.payload.signature") /\
   calls (snd (_get_auth_token lib (offline now) (cached (token_doc noon))))
   = []) /\
  calls (snd (_get_auth_token lib (offline noon_instant)
                (cached (token_doc noon))))
  = [Login].
Proof.
  split.
  - apply (get_auth_token_expiry_boundary lib (offline now)
             (cached (token_doc noon)) (token_doc noon)
             (VStr "header.payload.signature") (utc noon_instant)).
    + apply loads_cached.
    + apply (holds_token_doc []).
    + reflexivity.
  - apply (get_auth_token_expiry_boundary lib (offline noon_instant)
             (cached (token_doc noon)) (token_doc noon)
             (VStr "header.payload.signature") (utc noon_instant)).
    + apply loads_cached.
    + apply (holds_token_doc []).
    + cbn. discriminate.
Defined.

Lemma get_auth_token_raises_on_malformed_expiration_witness :
  fromisoformat lib "not-a-date" = None /\
  fst (_get_auth_token lib (online now) (cached (token_doc "not-a-date")))
  = Raise ValueError.
Proof.
  split; [reflexivity|].
  apply (get_auth_token_raises_on_malformed_expiration lib (online now)
           (cached (token_doc "not-a-date")) (token_doc "not-a-date")
           "not-a-date").
  - apply loads_cached.
  - reflexivity.
  - discriminate.
  - reflexivity.
Defined.

Lemma building_cache_boundary_witness :
  calls (snd (search_building_id lib (online now) "Main St 1"
                (cached (full_doc noon thirty_days_ago))))
  = [Search (VStr "header.payload.signature") "Main St 1"] /\
  fst (search_building_id lib (online now) "Main St 1"
         (cached (full_doc noon just_under_thirty_days_ago)))
  = Ret (VStr "B123") /\
  calls (snd (search_building_id lib (online now) "Main St 1"
                (cached (full_doc noon just_under_thirty_days_ago))))
  = [].
Proof.
  split.
  - apply (building_cache_boundary lib (online now)
             (cached (full_doc noon thirty_days_ago))
             (full_doc noon thirty_days_ago)
             (VStr "header.payload.signature") (utc noon_instant)
             "Main St 1" (VStr "B123") (utc (now - days 30))).
    + apply loads_cached.
    + reflexivity.
    + apply holds_token_doc.
    + reflexivity.
    + apply holds_building_doc; [discriminate | reflexivity].
    + cbn. discriminate.
  - apply (building_cache_boundary lib (online now)
             (cached (full_doc noon just_under_thirty_days_ago))
             (full_doc noon just_under_thirty_days_ago)
             (VStr "header.payload.signature") (utc noon_instant)
             "Main St 1" (VStr "B123") (utc (now - days 30 + 1))).
    + apply loads_cached.
    + reflexivity.
    + apply holds_token_doc.
    + reflexivity.
    + apply holds_building_doc; [discriminate | reflexivity].
    + reflexivity.
Defined.

Lemma search_building_id_without_token_witness :
  holds_building lib (full_doc noon this_morning) "Main St 1"
    (VStr "B123") (utc now) /\
  noon_instant - now < BUILDING_CACHE_LIFETIME /\
  fst (_get_auth_token lib (offline noon_instant)
         (cached (full_doc noon this_morning))) = Ret VNone /\
  search_building_id lib (offline noon_instant) "Main St 1"
    (cached (full_doc noon this_morning))
  = (Ret VNone,
     snd (_get_auth_token lib (offline noon_instant)
            (cached (full_doc noon this_morning)))).
Proof.
  split; [apply holds_building_doc; [discriminate | reflexivity]|].
  split; [reflexivity|]. split; [reflexivity|].
  apply search_building_id_without_token. reflexivity.
Defined.

Lemma update_fails_without_records_witness :
  (parse_collection_dates no_services = Ret [] /\
   async_update_data_for_address lib (env now Written (vendor no_services))
     "Main St 1" (world None)
   = (Raise (UpdateFailed_from UpdateFailed_no_dates),
      snd (get_waste_data lib (env now Written (vendor no_services))
             "Main St 1" (world None)))) /\
  (parse_collection_dates main_st_services
   = Ret [(VStr "Restavfall", mkDate 2025 3 10)] /\
   async_update_data_for_address lib (online now) "Main St 1" (world None)
   = (Ret ([(VStr "Restavfall", mkDate 2025 3 10)], main_st_services),
      snd (get_waste_data lib (online now) "Main St 1" (world None)))).
Proof.
  split; (split; [reflexivity|]).
  - apply (update_fails_without_records lib
             (env now Written (vendor no_services)) "Main St 1" (world None)
             _ no_services).
    + reflexivity.
    + reflexivity.
  - apply (update_fails_without_records lib (online now) "Main St 1"
             (world None) _ main_st_services).
    + reflexivity.
    + reflexivity.
    + reflexivity.
    + discriminate.
Defined.

(** C6 fails when no valid token is in the cache, where the first call logs
    in before it searches, and when the cache file cannot be written, where
    the second call searches again. *)
Lemma search_building_id_twice_more_than_one_call :
  (fst (search_building_id lib (online now) "Main St 1" (world None))
   = Ret (VStr "B123") /\
   fst (search_building_id lib (online now) "Main St 1"
          (snd (search_building_id lib (online now) "Main St 1"
                  (world None))))
   = Ret (VStr "B123") /\
   calls (snd (search_building_id lib (online now) "Main St 1"
                 (snd (search_building_id lib (online now) "Main St 1"
                         (world None)))))
   = [Login; Search (VStr "header.payload.signature") "Main St 1"]) /\
  (fst (search_building_id lib (env now WriteFails (vendor main_st_services))
          "Main St 1" (cached (token_doc noon)))
   = Ret (VStr "B123") /\
   calls (snd (search_building_id lib
                 (env now WriteFails (vendor main_st_services)) "Main St 1"
                 (snd (search_building_id lib
                         (env now WriteFails (vendor main_st_services))
                         "Main St 1" (cached (token_doc noon))))))
   = [Search (VStr "header.payload.signature") "Main St 1"; Login;
      Search (VStr "header.payload.signature") "Main St 1"]).
Proof. vm_compute. repeat split. Qed.

Lemma search_building_id_twice_witness :
  fst (search_building_id lib (online now) "Main St 1"
         (cached (token_doc noon)))
  = Ret (VStr "B123") /\
  fst (search_building_id lib (online now) "Main St 1"
         (snd (search_building_id lib (online now) "Main St 1"
                 (cached (token_doc noon)))))
  = Ret (VStr "B123") /\
  calls (snd (search_building_id lib (online now) "Main St 1"
                (snd (search_building_id lib (online now) "Main St 1"
                        (cached (token_doc noon))))))
  = [Search (VStr "header.payload.signature") "Main St 1"].
Proof.
  split; [reflexivity|].
  apply (search_building_id_twice lib (online now)
           (cached (token_doc noon))
           (snd (search_building_id lib (online now) "Main St 1"
                   (cached (token_doc noon))))
           (token_doc noon) (VStr "header.payload.signature")
           (utc noon_instant) (utc now) "Main St 1" (VStr "B123")).
  - apply loads_cached.
  - reflexivity.
  - apply (holds_token_doc []).
  - reflexivity.
  - reflexivity.
  - reflexivity.
  - cbn. discriminate.
  - reflexivity.
  - reflexivity.
  - reflexivity.
  - reflexivity.
  - vm_compute. discriminate.
  - reflexivity.
  - reflexivity.
  - reflexivity.
Defined.

(** * Further properties of the module *)

(** ** The parser: what its result is made of *)

Lemma key_eqb_sym : forall a b, key_eqb a b = key_eqb b a.
Proof.
  intros a b. destruct a, b; cbn [key_eqb]; try reflexivity.
  - destruct b0, b; reflexivity.
  - apply Z.eqb_sym.
  - apply Z.eqb_sym.
  - apply Z.eqb_sym.
  - apply String.eqb_sym.
Qed.

Lemma strptime_ymd_valid :
  forall s d, strptime_ymd s = Some d -> is_valid d.
Proof.
  intros s d H. unfold strptime_ymd in H.
  destruct (match_Y (list_ascii_of_string s)) as [[y r1]|]; [|discriminate].
  destruct (match_dash r1) as [r2|]; [|discriminate].
  destruct (match_m r2) as [[m r3]|]; [|discriminate].
  destruct (match_dash r3) as [r4|]; [|discriminate].
  destruct (match_d r4) as [[dd [|c r5]]|]; try discriminate.
  destruct (valid_date y m dd) eqn:Hv; [|discriminate].
  inversion H; subst. exact Hv.
Qed.

(** One step of the loop, seen from outside: it leaves the dictionary as it
    is, or sets one hashable, truthy title to a date of the calendar. *)
Lemma parse_service_step :
  forall dates service dates',
    parse_service dates service = Ret dates' ->
    dates' = dates \/
    exists title d,
      dates' = kd_set title d dates /\ record_ok (title, d).
Proof.
  intros dates service dates' H. unfold parse_service in H.
  destruct (py_get service "title") as [title|]; [|discriminate].
  destruct (py_get service "nextPickup") as [np|]; [|discriminate].
  destruct (truthy title) eqn:Ht; cbn [andb negb] in H.
  2:{ inversion H. left. reflexivity. }
  destruct (truthy np) eqn:Hn; cbn [negb] in H.
  2:{ inversion H. left. reflexivity. }
  destruct np; try discriminate.
  destruct (strptime_ymd s) as [d|] eqn:Hp.
  2:{ inversion H. left. reflexivity. }
  destruct (hashable title) eqn:Hh; [|discriminate].
  inversion H. right. exists title, d. split; [reflexivity|].
  repeat split; try assumption. exact (strptime_ymd_valid _ _ Hp).
Qed.

Lemma kd_set_records :
  forall dates title d,
    Forall record_ok dates -> record_ok (title, d) ->
    Forall record_ok (kd_set title d dates).
Proof.
  induction dates as [|[k0 v0] rest IH]; intros title d Hall Hr; simpl.
  - constructor; [exact Hr | constructor].
  - inversion Hall as [|? ? H0 Hrest]; subst.
    destruct (key_eqb k0 title).
    + constructor; [|exact Hrest].
      destruct H0 as (Ha & Hb & _). destruct Hr as (_ & _ & Hc).
      repeat split; assumption.
    + constructor; [exact H0 | apply IH; assumption].
Qed.

Lemma kd_get_set_None :
  forall A (d : list (value * A)) k k' v,
    kd_get k d = None -> key_eqb k' k = false ->
    kd_get k (kd_set k' v d) = None.
Proof.
  induction d as [|[k0 v0] rest IH]; intros k k' v Hg Hne; simpl in *.
  - rewrite Hne. reflexivity.
  - destruct (key_eqb k0 k) eqn:H0; [discriminate|].
    destruct (key_eqb k0 k') eqn:H1; simpl; rewrite H0.
    + exact Hg.
    + apply IH; assumption.
Qed.

Lemma kd_set_distinct :
  forall A (d : list (value * A)) k v,
    keys_distinct d -> keys_distinct (kd_set k v d).
Proof.
  induction d as [|[k0 v0] rest IH]; intros k v Hd; simpl in *.
  - split; [reflexivity | exact I].
  - destruct Hd as [H0 Hrest].
    destruct (key_eqb k0 k) eqn:Hk; simpl.
    + split; assumption.
    + split; [|apply IH; exact Hrest].
      apply kd_get_set_None; [exact H0|].
      rewrite key_eqb_sym. exact Hk.
Qed.

Lemma parse_services_invariant :
  forall services dates dates',
    parse_services dates services = Ret dates' ->
    Forall record_ok dates -> keys_distinct dates ->
    Forall record_ok dates' /\ keys_distinct dates'.
Proof.
  induction services as [|e rest IH]; intros dates dates' H Hall Hd;
    simpl in H.
  - inversion H; subst. split; assumption.
  - destruct (parse_service dates e) as [mid|] eqn:He; [|discriminate].
    destruct (parse_service_step _ _ _ He) as [->|(t & d & -> & Hr)].
    + eapply IH; eassumption.
    + eapply IH; [exact H | apply kd_set_records; assumption
                 | apply kd_set_distinct; assumption].
Qed.

Lemma parse_collection_dates_invariant :
  forall data parsed,
    parse_collection_dates data = Ret parsed ->
    Forall record_ok parsed /\ keys_distinct parsed.
Proof.
  intros data parsed H. unfold parse_collection_dates in H.
  destruct (py_get data "services") as [[| | | |l|]|]; try discriminate;
    try (inversion H; subst; split; [constructor | exact I]).
  eapply parse_services_invariant; [exact H | constructor | exact I].
Qed.

(** X1: whenever [parse_collection_dates] returns, every record of the
    mapping has a truthy title that can be a dictionary key and a date that
    exists in the calendar (a year from 1 to 9999, a month from 1 to 12, a
    day of that month). *)
Theorem parse_collection_dates_records_ok :
  forall (data : value) (parsed : list (value * date)),
    parse_collection_dates data = Ret parsed ->
    forall title d,
      In (title, d) parsed ->
      truthy title = true /\ hashable title = true /\
      valid_date (year d) (month d) (day d) = true.
Proof.
  intros data parsed H title d Hin.
  destruct (parse_collection_dates_invariant _ _ H) as [Hall _].
  rewrite Forall_forall in Hall. exact (Hall _ Hin).
Qed.

(** X2: whenever [parse_collection_dates] returns, no two records of the
    mapping have the same title: each title has one date. *)
Theorem parse_collection_dates_titles_distinct :
  forall (data : value) (parsed : list (value * date)),
    parse_collection_dates data = Ret parsed ->
    keys_distinct parsed.
Proof.
  intros data parsed H.
  exact (proj2 (parse_collection_dates_invariant _ _ H)).
Qed.

(** ** The parser: what makes it raise *)

Lemma parse_services_app :
  forall pre post dates,
    parse_services dates (pre ++ post)
    = match parse_services dates pre with
      | Ret mid => parse_services mid post
      | Raise e => Raise e
      end.
Proof.
  induction pre as [|e rest IH]; intros post dates; simpl.
  - reflexivity.
  - destruct (parse_service dates e); [apply IH | reflexivity].
Qed.

(** X3: a service entry with a title and a [nextPickup] that is truthy but
    not a string (a number, say) makes [parse_collection_dates] raise
    [TypeError], once the entries before it have been read: [strptime]
    refuses the argument and the handler only catches [ValueError]. *)
Theorem parse_collection_dates_non_text_pickup_raises :
  forall (kvs : list (string * value)) (pre post : list value)
         (mid : list (value * date)) (entry : list (string * value))
         (title pickup : value),
    assoc "services" kvs = Some (VList (pre ++ VDict entry :: post)) ->
    parse_services [] pre = Ret mid ->
    assoc "title" entry = Some title -> truthy title = true ->
    assoc "nextPickup" entry = Some pickup -> truthy pickup = true ->
    is_text pickup = false ->
    parse_collection_dates (VDict kvs) = Raise TypeError.
Proof.
  intros kvs pre post mid entry title pickup Hs Hpre Ht Htt Hp Htp Hnt.
  unfold parse_collection_dates, py_get, py_get_default. rewrite Hs.
  rewrite parse_services_app, Hpre. simpl.
  unfold parse_service, py_get, py_get_default. rewrite Ht, Hp, Htt, Htp.
  cbn [andb negb]. destruct pickup; try discriminate; reflexivity.
Qed.

(** X4: a service entry that is not an object (a string, a number, a list,
    [null]) makes [parse_collection_dates] raise [AttributeError], once the
    entries before it have been read. *)
Theorem parse_collection_dates_non_object_entry_raises :
  forall (kvs : list (string * value)) (pre post : list value)
         (mid : list (value * date)) (entry : value),
    assoc "services" kvs = Some (VList (pre ++ entry :: post)) ->
    parse_services [] pre = Ret mid ->
    is_object entry = false ->
    parse_collection_dates (VDict kvs) = Raise AttributeError.
Proof.
  intros kvs pre post mid entry Hs Hpre Hno.
  unfold parse_collection_dates, py_get, py_get_default. rewrite Hs.
  rewrite parse_services_app, Hpre. simpl.
  unfold parse_service, py_get, py_get_default.
  destruct entry; try discriminate; reflexivity.
Qed.

(** ** [strptime] on texts of the shape YYYY-MM-DD *)

Lemma digit_cases :
  forall c,
    is_digit c = true ->
    In c ["0"; "1"; "2"; "3"; "4"; "5"; "6"; "7"; "8"; "9"]%char.
Proof.
  intros [[] [] [] [] [] [] [] []] H; vm_compute in H; try discriminate;
    simpl; tauto.
Qed.

Ltac each_digit H :=
  apply digit_cases in H; simpl in H;
  repeat match type of H with
         | _ \/ _ => destruct H as [H|H]
         end;
  [subst .. | contradiction].

Lemma match_m_in_range :
  forall a b rest,
    is_digit a = true -> is_digit b = true ->
    1 <= two_digits a b <= 12 ->
    match_m (a :: b :: "-"%char :: rest)
    = Some (two_digits a b, "-"%char :: rest).
Proof.
  intros a b rest Ha Hb Hr.
  each_digit Ha; each_digit Hb; vm_compute in Hr; destruct Hr as [H1 H2];
    try (exfalso; apply H1; reflexivity);
    try (exfalso; apply H2; reflexivity);
    reflexivity.
Qed.

Lemma match_m_out_of_range :
  forall a b rest,
    is_digit a = true -> is_digit b = true ->
    ~ 1 <= two_digits a b <= 12 ->
    match match_m (a :: b :: "-"%char :: rest) with
    | Some (_, r3) => match_dash r3
    | None => None
    end = None.
Proof.
  intros a b rest Ha Hb Hr.
  each_digit Ha; each_digit Hb; try reflexivity;
    exfalso; apply Hr; vm_compute; split; discriminate.
Qed.

Lemma match_d_in_range :
  forall a b,
    is_digit a = true -> is_digit b = true ->
    1 <= two_digits a b <= 31 ->
    match_d [a; b] = Some (two_digits a b, []).
Proof.
  intros a b Ha Hb Hr.
  each_digit Ha; each_digit Hb; vm_compute in Hr; destruct Hr as [H1 H2];
    try (exfalso; apply H1; reflexivity);
    try (exfalso; apply H2; reflexivity);
    reflexivity.
Qed.

Lemma match_d_out_of_range :
  forall a b,
    is_digit a = true -> is_digit b = true ->
    ~ 1 <= two_digits a b <= 31 ->
    forall d, match_d [a; b] <> Some (d, []).
Proof.
  intros a b Ha Hb Hr d.
  each_digit Ha; each_digit Hb; try (vm_compute; discriminate);
    exfalso; apply Hr; vm_compute; split; discriminate.
Qed.

Lemma days_in_month_le_31 : forall y m, days_in_month y m <= 31.
Proof.
  intros y m. unfold days_in_month.
  destruct (m =? 2); [destruct (is_leap y); lia|].
  destruct ((m =? 4) || (m =? 6) || (m =? 9) || (m =? 11)); lia.
Qed.

Lemma valid_date_ranges :
  forall y m d,
    valid_date y m d = true -> 1 <= m <= 12 /\ 1 <= d <= 31.
Proof.
  intros y m d H. unfold valid_date in H.
  repeat (apply andb_prop in H; destruct H as [H ?]).
  pose proof (days_in_month_le_31 y m). lia.
Qed.

(** X5: on a text of the shape YYYY-MM-DD (four digits, a dash, two digits,
    a dash, two digits), [strptime] with [%Y-%m-%d] returns the date the
    digits write when that is a date of the calendar, and raises
    [ValueError] when it is not. *)
Theorem strptime_ymd_exact_shape :
  forall (y1 y2 y3 y4 m1 m2 d1 d2 : ascii),
    is_digit y1 = true -> is_digit y2 = true ->
    is_digit y3 = true -> is_digit y4 = true ->
    is_digit m1 = true -> is_digit m2 = true ->
    is_digit d1 = true -> is_digit d2 = true ->
    strptime_ymd
      (string_of_list_ascii
         [y1; y2; y3; y4; "-"; m1; m2; "-"; d1; d2]%char)
    = if valid_date (four_digits y1 y2 y3 y4) (two_digits m1 m2)
                    (two_digits d1 d2)
      then Some (mkDate (four_digits y1 y2 y3 y4) (two_digits m1 m2)
                        (two_digits d1 d2))
      else None.
Proof.
  intros y1 y2 y3 y4 m1 m2 d1 d2 Hy1 Hy2 Hy3 Hy4 Hm1 Hm2 Hd1 Hd2.
  unfold strptime_ymd. rewrite list_ascii_of_string_of_list_ascii.
  unfold match_Y. rewrite Hy1, Hy2, Hy3, Hy4. cbn [andb].
  change (match_dash ("-"%char :: m1 :: m2 :: "-"%char :: [d1; d2]))
    with (Some (m1 :: m2 :: "-"%char :: [d1; d2])).
  cbv beta iota.
  fold (four_digits y1 y2 y3 y4).
  destruct (valid_date (four_digits y1 y2 y3 y4) (two_digits m1 m2)
              (two_digits d1 d2)) eqn:Hv.
  - destruct (valid_date_ranges _ _ _ Hv) as [Hm Hd].
    rewrite (match_m_in_range _ _ _ Hm1 Hm2 Hm).
    change (match_dash ("-"%char :: [d1; d2])) with (Some [d1; d2]).
    cbv beta iota.
    rewrite (match_d_in_range _ _ Hd1 Hd2 Hd). rewrite Hv. reflexivity.
  - destruct (Z_le_dec 1 (two_digits m1 m2)) as [Hlo|Hlo];
      [destruct (Z_le_dec (two_digits m1 m2) 12) as [Hhi|Hhi]|].
    + rewrite (match_m_in_range _ _ _ Hm1 Hm2 (conj Hlo Hhi)).
      change (match_dash ("-"%char :: [d1; d2])) with (Some [d1; d2]).
      cbv beta iota.
      destruct (Z_le_dec 1 (two_digits d1 d2)) as [Hdlo|Hdlo];
        [destruct (Z_le_dec (two_digits d1 d2) 31) as [Hdhi|Hdhi]|].
      * rewrite (match_d_in_range _ _ Hd1 Hd2 (conj Hdlo Hdhi)).
        rewrite Hv. reflexivity.
      * destruct (match_d [d1; d2]) as [[d [|c r]]|] eqn:Hd;
          try reflexivity.
        exfalso. apply (match_d_out_of_range _ _ Hd1 Hd2) with (d := d);
          [lia | exact Hd].
      * destruct (match_d [d1; d2]) as [[d [|c r]]|] eqn:Hd;
          try reflexivity.
        exfalso. apply (match_d_out_of_range _ _ Hd1 Hd2) with (d := d);
          [lia | exact Hd].
    + pose proof (match_m_out_of_range m1 m2 [d1; d2] Hm1 Hm2) as Hbad.
      destruct (match_m (m1 :: m2 :: "-"%char :: [d1; d2])) as [[m r3]|];
        [|reflexivity].
      rewrite Hbad by lia. reflexivity.
    + pose proof (match_m_out_of_range m1 m2 [d1; d2] Hm1 Hm2) as Hbad.
      destruct (match_m (m1 :: m2 :: "-"%char :: [d1; d2])) as [[m r3]|];
        [|reflexivity].
      rewrite Hbad by lia. reflexivity.
Qed.

(** ** The token manager in every world *)

(** Symbolic runs: split on the innermost scrutinee that blocks the
    computation, in the goal or in a hypothesis, until none is left. *)
Ltac split_goal :=
  match goal with
  | |- context [match ?x with _ => _ end] =>
      lazymatch x with
      | context [match _ with _ => _ end] => fail
      | _ => destruct x eqn:?
      end
  end.

Ltac split_in H :=
  match type of H with
  | context [match ?x with _ => _ end] =>
      lazymatch x with
      | context [match _ with _ => _ end] => fail
      | _ => destruct x eqn:?
      end
  end.

Ltac unfold_steps :=
  unfold parse_timestamp, cache_buster, http, now_utc, _save_cache_data,
    bind, lift, ret, raise.

Ltac unfold_steps_in H :=
  unfold parse_timestamp, cache_buster, http, now_utc, _save_cache_data,
    bind, lift, ret, raise in H.

Ltac run := repeat first [progress cbn beta iota | split_goal].

Ltac run_in H := repeat first [progress cbn beta iota in H | split_in H].

(** The load changes nothing but the count of its reads. *)
Lemma load_cache_data_frame :
  forall E w,
    exists r w',
      _load_cache_data E w = (r, w') /\
      disk w' = disk w /\ calls w' = calls w /\
      file_writes w' = file_writes w /\ clock_reads w' = clock_reads w /\
      _auth_token w' = _auth_token w /\
      _token_expiration_time w' = _token_expiration_time w.
Proof.
  intros E w. unfold _load_cache_data.
  destruct (disk w) as [[doc| | |]|] eqn:Hd;
    try destruct (read_error E (file_reads w));
    eexists _, _; (split; [reflexivity|]); cbn; repeat split; assumption.
Qed.

Lemma get_auth_token_calls :
  forall L E w,
    exists l,
      calls (snd (_get_auth_token L E w)) = (calls w ++ l)%list /\
      (l = [] \/ l = [Login]).
Proof.
  intros L E w. unfold _get_auth_token. unfold bind at 1.
  destruct (load_cache_data_frame E w)
    as (doc & w1 & -> & _ & Hc & _).
  unfold_steps. run; cbn; rewrite Hc;
    first [ exists []; split; [symmetry; apply app_nil_r | auto]
          | exists [Login]; split; [reflexivity | auto] ].
Qed.

(** X6: in every world, [_get_auth_token] makes no network call or exactly
    one, and that one is the login call. *)
Theorem get_auth_token_at_most_one_login :
  forall (L : PyLib) (E : Env) (w : World),
    calls (snd (_get_auth_token L E w)) = calls w \/
    calls (snd (_get_auth_token L E w)) = (calls w ++ [Login])%list.
Proof.
  intros L E w.
  destruct (get_auth_token_calls L E w) as (l & Hl & [-> | ->]).
  - left. rewrite Hl. apply app_nil_r.
  - right. exact Hl.
Qed.

Lemma get_auth_token_falsy_frame :
  forall L E w,
    match fst (_get_auth_token L E w) with
    | Ret v =>
        truthy v = false ->
        v = VNone /\
        disk (snd (_get_auth_token L E w)) = disk w /\
        file_writes (snd (_get_auth_token L E w)) = file_writes w /\
        _auth_token (snd (_get_auth_token L E w)) = _auth_token w /\
        _token_expiration_time (snd (_get_auth_token L E w))
        = _token_expiration_time w
    | Raise _ => True
    end.
Proof.
  intros L E w.
  destruct (_get_auth_token L E w) as [r wf] eqn:Hrun. cbn [fst snd].
  unfold _get_auth_token in Hrun. unfold bind at 1 in Hrun.
  destruct (load_cache_data_frame E w)
    as (doc & w1 & Hload & Hd & _ & Hw & _ & Ha & He).
  rewrite Hload in Hrun. unfold_steps_in Hrun.
  run_in Hrun; inversion Hrun; subst; try exact I; intros Hf;
    try congruence;
    try (cbn in Hf; congruence);
    try (unfold truthy in Hf;
         match goal with
         | H : (_ =? "")%string = false |- _ => rewrite H in Hf
         end; discriminate);
    cbn; repeat split; assumption.
Qed.

(** X7: whatever [_get_auth_token] returns is [None] or truthy, so the test
    [if not auth_token] of its callers rejects [None] and nothing else. *)
Theorem get_auth_token_none_or_truthy :
  forall (L : PyLib) (E : Env) (w : World) (v : value),
    fst (_get_auth_token L E w) = Ret v ->
    v = VNone \/ truthy v = true.
Proof.
  intros L E w v H. pose proof (get_auth_token_falsy_frame L E w) as F.
  rewrite H in F. destruct (truthy v); [right; reflexivity|].
  left. exact (proj1 (F eq_refl)).
Qed.

(** X8: when [_get_auth_token] returns [None] (the login call failed, or
    its body was blank), it has not written the cache file, whose content
    is as before, and the two attributes of the client are as before. *)
Theorem get_auth_token_failure_changes_nothing :
  forall (L : PyLib) (E : Env) (w : World),
    fst (_get_auth_token L E w) = Ret VNone ->
    disk (snd (_get_auth_token L E w)) = disk w /\
    file_writes (snd (_get_auth_token L E w)) = file_writes w /\
    _auth_token (snd (_get_auth_token L E w)) = _auth_token w /\
    _token_expiration_time (snd (_get_auth_token L E w))
    = _token_expiration_time w.
Proof.
  intros L E w H. pose proof (get_auth_token_falsy_frame L E w) as F.
  rewrite H in F. exact (proj2 (F eq_refl)).
Qed.

Lemma get_auth_token_login_run :
  forall L E w w1 kvs text body,
    _load_cache_data E w = (Ret (VDict kvs), w1) ->
    assoc "token_expiration_time" kvs = None ->
    server E (length (calls w)) Login = Response text body ->
    strip text <> ""%string ->
    write_outcome_at E (file_writes w) = Written ->
    exists wf,
      _get_auth_token L E w = (Ret (VStr (strip text)), wf) /\
      calls wf = (calls w ++ [Login])%list /\
      disk wf
      = Some (Json (VDict (with_token L kvs (strip text)
                             (login_expiry L (strip text)
                                (clock E (clock_reads w)))))) /\
      _auth_token wf = VStr (strip text) /\
      _token_expiration_time wf
      = Some (utc (login_expiry L (strip text) (clock E (clock_reads w)))).
Proof.
  intros L E w w1 kvs text body Hload Hexp Hsrv Hne Hwr.
  destruct (load_cache_data_frame E w)
    as (doc & w1' & Hload' & Hd & Hc & Hw & Hk & _).
  rewrite Hload in Hload'. inversion Hload'; subst doc w1'. clear Hload'.
  unfold _get_auth_token. unfold bind at 1. rewrite Hload.
  unfold_steps. unfold py_get, py_get_default. rewrite Hexp.
  cbn [truthy]. cbv beta iota.
  match goal with
  | |- context [truthy ?x] => destruct (truthy x)
  end; cbv beta iota.
  all: rewrite Hc, Hsrv;
    (destruct (String.eqb_spec (strip text) ""); [contradiction|]);
    unfold login_expiry, with_token, py_setitem;
    destruct (jwt_exp L (strip text)); cbn; rewrite Hw, Hwr, ?Hk;
    eexists; (split; [reflexivity|]); cbn; rewrite ?Hc;
    repeat split; repeat f_equal; unfold dt_add, utc; cbn; f_equal; lia.
Qed.

(** X9: with no expiration time in the cache document (a first start, an
    absent or unreadable file), a login that answers with a non-blank body
    makes [_get_auth_token] return the stripped body as the token, with the
    login call as its only call; the token expires five minutes before its
    [exp] claim, or one hour after the clock reading when there is no claim
    to read; and, the write succeeding, the cache file holds the document
    it had read with [token] and [token_expiration_time] set. *)
Theorem get_auth_token_login_persists :
  forall (L : PyLib) (E : Env) (w w1 : World)
         (kvs : list (string * value)) (text : string)
         (body : option value),
    _load_cache_data E w = (Ret (VDict kvs), w1) ->
    assoc "token_expiration_time" kvs = None ->
    server E (length (calls w)) Login = Response text body ->
    strip text <> ""%string ->
    write_outcome_at E (file_writes w) = Written ->
    fst (_get_auth_token L E w) = Ret (VStr (strip text)) /\
    calls (snd (_get_auth_token L E w)) = (calls w ++ [Login])%list /\
    disk (snd (_get_auth_token L E w))
    = Some (Json (VDict (with_token L kvs (strip text)
                           (login_expiry L (strip text)
                              (clock E (clock_reads w)))))) /\
    _auth_token (snd (_get_auth_token L E w)) = VStr (strip text) /\
    _token_expiration_time (snd (_get_auth_token L E w))
    = Some (utc (login_expiry L (strip text) (clock E (clock_reads w)))).
Proof.
  intros L E w w1 kvs text body Hload Hexp Hsrv Hne Hwr.
  destruct (get_auth_token_login_run L _ _ _ _ _ _ Hload Hexp Hsrv Hne Hwr)
    as (wf & -> & H). exact (conj eq_refl H).
Qed.

(** X10: the token a login has written is the one the next call returns:
    after the login of X9, a call of [_get_auth_token] that reads the cache
    file, and reads the clock before the expiration time, returns the same
    token and makes no call of its own, provided [fromisoformat] reads back
    the instant [isoformat] wrote. *)
Theorem get_auth_token_reuses_persisted_token :
  forall (L : PyLib) (E : Env) (w w1 : World)
         (kvs : list (string * value)) (text : string)
         (body : option value) (t : datetime),
    _load_cache_data E w = (Ret (VDict kvs), w1) ->
    assoc "token_expiration_time" kvs = None ->
    server E (length (calls w)) Login = Response text body ->
    strip text <> ""%string ->
    write_outcome_at E (file_writes w) = Written ->
    read_error E (file_reads (snd (_get_auth_token L E w))) = false ->
    isoformat L (utc (login_expiry L (strip text) (clock E (clock_reads w))))
    <> ""%string ->
    fromisoformat L
      (isoformat L
         (utc (login_expiry L (strip text) (clock E (clock_reads w)))))
    = Some t ->
    instant t = login_expiry L (strip text) (clock E (clock_reads w)) ->
    clock E (clock_reads (snd (_get_auth_token L E w)))
    < login_expiry L (strip text) (clock E (clock_reads w)) ->
    fst (_get_auth_token L E (snd (_get_auth_token L E w)))
    = Ret (VStr (strip text)) /\
    calls (snd (_get_auth_token L E (snd (_get_auth_token L E w))))
    = (calls w ++ [Login])%list.
Proof.
  intros L E w w1 kvs text body t Hload Hexp Hsrv Hne Hwr.
  destruct (get_auth_token_login_run L _ _ _ _ _ _ Hload Hexp Hsrv Hne Hwr)
    as (wf & -> & Hc & Hd & _). cbn [snd].
  intros Hr Hiso_ne Hiso Ht Hlt.
  rewrite <- Ht in Hlt.
  rewrite (get_auth_token_cached L E wf
             (with_token L kvs (strip text)
                (login_expiry L (strip text) (clock E (clock_reads w))))
             (VStr (strip text)) t).
  - split; [reflexivity | exact Hc].
  - split; [exact Hd | exact Hr].
  - unfold with_token. split; [|split].
    + rewrite assoc_set_other by discriminate. apply assoc_set_same.
    + apply truthy_text. exact Hne.
    + eexists. split; [apply assoc_set_same|]. split; assumption.
  - exact Hlt.
Qed.

(** ** The building resolver in every world *)

Lemma cached_query_param_frame :
  forall L E bc address w r w',
    cached_query_param L E bc address w = (r, w') ->
    calls w' = calls w /\ disk w' = disk w /\
    file_writes w' = file_writes w.
Proof.
  intros L E bc address w r w' H.
  destruct (cached_query_param_outcome _ _ _ _ _ _ _ H) as [[-> | ->] _];
    repeat split.
Qed.

Lemma search_building_id_calls :
  forall L E address w,
    exists l,
      calls (snd (search_building_id L E address w)) = (calls w ++ l)%list /\
      (l = [] \/ l = [Login] \/
       (exists tok, l = [Search tok address]) \/
       (exists tok, l = [Login; Search tok address])).
Proof.
  intros L E address w. unfold search_building_id. unfold bind at 1.
  destruct (get_auth_token_calls L E w) as (l0 & Hl0 & Hcase).
  destruct (_get_auth_token L E w) as [[tok|e] wt]; cbn [snd] in Hl0.
  2:{ exists l0. split; [exact Hl0 | destruct Hcase; auto]. }
  destruct (truthy tok); cbn [negb].
  2:{ exists l0. split; [exact Hl0 | destruct Hcase; auto]. }
  unfold bind at 1.
  destruct (load_cache_data_frame E wt)
    as ([doc|e] & w2 & -> & _ & Hc2 & _).
  2:{ exists l0. cbn [snd]. rewrite Hc2.
      split; [exact Hl0 | destruct Hcase; auto]. }
  unfold bind at 1. unfold lift at 1.
  destruct (py_get_default doc "buildings" (VDict [])) as [bc|e].
  2:{ exists l0. cbn [snd]. rewrite Hc2.
      split; [exact Hl0 | destruct Hcase; auto]. }
  unfold bind at 1.
  destruct (cached_query_param L E bc address w2) as [r3 w3] eqn:Hlook.
  destruct (cached_query_param_frame _ _ _ _ _ _ _ Hlook) as (Hc3 & _).
  destruct r3 as [[q|]|e].
  - exists l0. cbn [snd ret]. rewrite Hc3, Hc2.
    split; [exact Hl0 | destruct Hcase; auto].
  - unfold_steps. unfold py_setitem.
    run; cbn; rewrite Hc3, Hc2, Hl0;
      exists (l0 ++ [Search tok address])%list;
      (split; [rewrite <- app_assoc; reflexivity |]);
      destruct Hcase as [-> | ->]; cbn; eauto 6.
  - exists l0. cbn [snd]. rewrite Hc3, Hc2.
    split; [exact Hl0 | destruct Hcase; auto].
Qed.

(** X11: in every world, [search_building_id] makes at most two network
    calls: possibly the login call, then possibly one search call for the
    address it was given; it never calls the waste endpoint. *)
Theorem search_building_id_call_footprint :
  forall (L : PyLib) (E : Env) (address : string) (w : World),
    exists l,
      calls (snd (search_building_id L E address w)) = (calls w ++ l)%list /\
      (l = [] \/ l = [Login] \/
       (exists tok, l = [Search tok address]) \/
       (exists tok, l = [Login; Search tok address])).
Proof. exact search_building_id_calls. Qed.

Lemma cached_query_param_hit_truthy :
  forall L E bc address w q w',
    cached_query_param L E bc address w = (Ret (Some q), w') ->
    truthy q = true.
Proof.
  intros L E bc address w q w' H.
  unfold cached_query_param, bind, lift, parse_timestamp, ret, raise,
    now_utc in H.
  destruct (py_get bc address) as [info|]; [|discriminate].
  destruct (truthy info); [|discriminate].
  destruct (py_get info "last_updated") as [lu|]; [|discriminate].
  destruct (py_get info "query_param") as [qp|]; [|discriminate].
  destruct (truthy lu); [|discriminate].
  destruct (truthy qp) eqn:Hq; [|discriminate]. cbn [andb] in H.
  destruct lu; try discriminate.
  destruct (fromisoformat L s); [|discriminate].
  match type of H with
  | context [if ?c then _ else _] => destruct c
  end; inversion H; subst. exact Hq.
Qed.

(** X12: when [search_building_id] does not come back with a
    [query_param] (it returns [None], or raises), it has cached nothing:
    the cache file is as [_get_auth_token] left it, content and number of
    writes. *)
Theorem search_building_id_failure_caches_nothing :
  forall (L : PyLib) (E : Env) (address : string) (w : World),
    succeeded (fst (search_building_id L E address w)) = false ->
    disk (snd (search_building_id L E address w))
    = disk (snd (_get_auth_token L E w)) /\
    file_writes (snd (search_building_id L E address w))
    = file_writes (snd (_get_auth_token L E w)).
Proof.
  intros L E address w.
  destruct (search_building_id L E address w) as [r wf] eqn:Hrun.
  unfold search_building_id in Hrun. unfold bind at 1 in Hrun.
  destruct (_get_auth_token L E w) as [[tok|e] wt]; cbn [fst snd].
  2:{ inversion Hrun; subst. split; reflexivity. }
  destruct (truthy tok); cbn [negb] in Hrun.
  2:{ inversion Hrun; subst. split; reflexivity. }
  unfold bind at 1 in Hrun.
  destruct (load_cache_data_frame E wt)
    as ([doc|e] & w2 & Hload & Hd2 & _ & Hw2 & _).
  2:{ rewrite Hload in Hrun. inversion Hrun; subst. split; assumption. }
  rewrite Hload in Hrun. unfold bind at 1 in Hrun. unfold lift at 1 in Hrun.
  destruct (py_get_default doc "buildings" (VDict [])) as [bc|e].
  2:{ inversion Hrun; subst. split; assumption. }
  unfold bind at 1 in Hrun.
  destruct (cached_query_param L E bc address w2) as [r3 w3] eqn:Hlook.
  destruct (cached_query_param_frame _ _ _ _ _ _ _ Hlook) as (_ & Hd3 & Hw3).
  destruct r3 as [[q|]|e].
  - pose proof (cached_query_param_hit_truthy _ _ _ _ _ _ _ Hlook) as Hq.
    inversion Hrun; subst. cbn. congruence.
  - unfold_steps_in Hrun. unfold py_setitem in Hrun.
    run_in Hrun; inversion Hrun; subst; cbn; intros Hs;
      try congruence;
      try (split; congruence);
      match goal with
      | H : negb (truthy ?v) = false |- _ =>
          destruct (truthy v); discriminate
      end.
  - inversion Hrun; subst. intros _. split; congruence.
Qed.

(** X13: with a valid token and no building cached, a search that answers
    with a list whose first element is not an object (a string, a number)
    makes [search_building_id] raise [AttributeError]: the guards on the
    body stop at the list, and [first_result.get] is outside them.  The
    cache file is not written. *)
Theorem search_building_id_non_object_result_raises :
  forall (L : PyLib) (E : Env) (w : World) (kvs : list (string * value))
         (token : value) (t : datetime) (address text : string)
         (first : value) (others : list value),
    loads E w (VDict kvs) -> read_error E (S (file_reads w)) = false ->
    holds_token L kvs token t -> clock E (clock_reads w) < instant t ->
    assoc "buildings" kvs = None ->
    server E (length (calls w)) (Search token address)
    = Response text (Some (VList (first :: others))) ->
    is_object first = false ->
    fst (search_building_id L E address w) = Raise AttributeError /\
    calls (snd (search_building_id L E address w))
    = (calls w ++ [Search token address])%list /\
    disk (snd (search_building_id L E address w)) = disk w.
Proof.
  intros L E w kvs token t address text first others
         Hl Hr2 Ht Hlt Hnone Hsrv Hobj.
  pose proof Ht as (_ & Htruthy & _).
  assert (Hl2 : loads E (set_token token (Some (assume_utc t))
                          (tick_clock (tick_read w))) (VDict kvs)).
  { destruct Hl as [Hd Hr]. split; [exact Hd | exact Hr2]. }
  assert (Hrun :
            search_building_id L E address w
            = (Raise AttributeError,
               add_call (Search token address)
                 (tick_clock
                    (tick_read
                       (set_token token (Some (assume_utc t))
                          (tick_clock (tick_read w))))))).
  { unfold search_building_id. unfold bind at 1.
    rewrite (get_auth_token_cached _ _ _ _ _ _ Hl Ht Hlt), Htruthy.
    cbn [negb]. unfold bind at 1.
    rewrite (load_cache_data_loads _ _ _ Hl2).
    unfold bind at 1. unfold lift at 1, py_get_default at 1. rewrite Hnone.
    unfold bind at 1. unfold cached_query_param at 1.
    unfold bind at 1. unfold lift at 1, py_get at 1, py_get_default at 1.
    cbn [assoc truthy ret].
    unfold cache_buster, http, bind, lift. cbn [calls tick_clock tick_read set_token].
    rewrite Hsrv. unfold py_get, py_get_default.
    destruct first; try discriminate; reflexivity. }
  rewrite Hrun. cbn. repeat split.
Qed.

(** The first call again, with the buildings it started from. *)
Lemma search_building_id_first_call_doc :
  forall L E w kvs token t address q w1,
    loads E w (VDict kvs) -> read_error E (S (file_reads w)) = false ->
    holds_token L kvs token t -> clock E (clock_reads w) < instant t ->
    search_building_id L E address w = (Ret q, w1) ->
    truthy q = true -> calls w1 <> calls w ->
    write_outcome_at E (file_writes w) = Written ->
    exists bkvs lu,
      match assoc "buildings" kvs with
      | Some x => x
      | None => VDict []
      end = VDict bkvs /\
      disk w1
      = Some (Json (VDict (assoc_set "buildings"
           (VDict (assoc_set address
              (VDict [("query_param", q); ("last_updated", VStr lu)])
              bkvs))
           kvs))).
Proof.
  intros L E w kvs token t address q w1 Hl Hr2 Ht Hlt Hrun Hq Hcalls Hwr.
  pose proof Ht as (_ & Htruthy & _).
  assert (Hl2 : loads E (set_token token (Some (assume_utc t))
                          (tick_clock (tick_read w))) (VDict kvs)).
  { destruct Hl as [Hd Hr]. split; [exact Hd | exact Hr2]. }
  unfold search_building_id in Hrun. unfold bind at 1 in Hrun.
  rewrite (get_auth_token_cached _ _ _ _ _ _ Hl Ht Hlt) in Hrun.
  rewrite Htruthy in Hrun. cbn [negb] in Hrun. unfold bind at 1 in Hrun.
  rewrite (load_cache_data_loads _ _ _ Hl2) in Hrun.
  unfold bind at 1 in Hrun. unfold lift at 1, py_get_default at 1 in Hrun.
  unfold bind at 1 in Hrun.
  match type of Hrun with
  | context [cached_query_param L E ?bc address ?wb] =>
      destruct (cached_query_param L E bc address wb) as [r wc] eqn:Hc;
      destruct (cached_query_param_outcome _ _ _ _ _ _ _ Hc) as [Hwc Hbc]
  end.
  destruct r as [[q'|]|e]; [| |discriminate].
  - exfalso. unfold ret in Hrun. inversion Hrun; subst.
    apply Hcalls. destruct Hwc as [-> | ->]; reflexivity.
  - destruct (Hbc _ eq_refl) as [bkvs Hbkvs]. exists bkvs.
    rewrite Hbkvs in Hrun. clear Hc Hbc.
    unfold cache_buster, http, bind, lift, ret, py_get, py_get_default,
      py_setitem, now_utc, _save_cache_data in Hrun.
    destruct Hwc as [-> | ->];
      repeat first
        [ progress cbn in Hrun
        | rewrite Hwr in Hrun
        | split_in Hrun ];
      inversion Hrun; subst; try discriminate;
      eexists; (split; [exact Hbkvs | reflexivity]).
Qed.

(** X14: a successful search updates one entry and keeps the rest: in the
    cache file the first call leaves, the token and its expiration time are
    as they were, the entry of every other address is as it was, and the
    entry of the address holds the [query_param] that was returned. *)
Theorem search_building_id_upsert_keeps_the_rest :
  forall (L : PyLib) (E : Env) (w w1 : World)
         (kvs : list (string * value)) (token : value) (t : datetime)
         (address : string) (q : value),
    loads E w (VDict kvs) -> read_error E (S (file_reads w)) = false ->
    holds_token L kvs token t -> clock E (clock_reads w) < instant t ->
    search_building_id L E address w = (Ret q, w1) ->
    truthy q = true -> calls w1 <> calls w ->
    write_outcome_at E (file_writes w) = Written ->
    exists kvs',
      disk w1 = Some (Json (VDict kvs')) /\
      assoc "token" kvs' = assoc "token" kvs /\
      assoc "token_expiration_time" kvs'
      = assoc "token_expiration_time" kvs /\
      (forall other,
          other <> address ->
          building_entry kvs' other = building_entry kvs other) /\
      exists lu,
        building_entry kvs' address
        = Some (VDict [("query_param", q); ("last_updated", VStr lu)]).
Proof.
  intros L E w w1 kvs token t address q Hl Hr2 Ht Hlt Hrun Hq Hcalls Hwr.
  destruct (search_building_id_first_call_doc
              _ _ _ _ _ _ _ _ _ Hl Hr2 Ht Hlt Hrun Hq Hcalls Hwr)
    as (bkvs & lu & Hb & Hdisk).
  eexists. split; [exact Hdisk|].
  split; [apply assoc_set_other; discriminate|].
  split; [apply assoc_set_other; discriminate|].
  split.
  - intros other Hother. unfold building_entry.
    rewrite assoc_set_same.
    rewrite assoc_set_other by (intros Heq; apply Hother; symmetry; exact Heq).
    destruct (assoc "buildings" kvs) as [x|].
    + subst x. reflexivity.
    + inversion Hb; subst. reflexivity.
  - exists lu. unfold building_entry. rewrite assoc_set_same.
    apply assoc_set_same.
Qed.

(** ** The fetch *)

Lemma get_waste_data_calls :
  forall L E address w,
    exists l front,
      calls (snd (get_waste_data L E address w)) = (calls w ++ l)%list /\
      (length front <= 3)%nat /\ existsb is_waste front = false /\
      (l = front \/ exists tok q, l = (front ++ [Waste tok q])%list).
Proof.
  intros L E address w. unfold get_waste_data. unfold bind at 1.
  destruct (get_auth_token_calls L E w) as (l0 & Hl0 & Hcase0).
  destruct (_get_auth_token L E w) as [[tok|e] wt]; cbn [snd] in Hl0.
  2:{ exists l0, l0. cbn [snd].
      destruct Hcase0; subst; cbn; repeat split; auto; lia. }
  destruct (truthy tok); cbn [negb].
  2:{ exists l0, l0. cbn [snd ret].
      destruct Hcase0; subst; cbn; repeat split; auto; lia. }
  unfold bind at 1.
  destruct (search_building_id_calls L E address wt) as (l1 & Hl1 & Hcase1).
  assert (Hfront : (length (l0 ++ l1) <= 3)%nat /\
                   existsb is_waste (l0 ++ l1) = false).
  { destruct Hcase0 as [-> | ->];
      destruct Hcase1 as [-> | [-> | [[? ->] | [? ->]]]]; cbn;
      split; auto; lia. }
  destruct Hfront as [Hlen Hnw].
  destruct (search_building_id L E address wt) as [[q|e] ws];
    cbn [snd] in Hl1; rewrite Hl0, <- app_assoc in Hl1.
  2:{ exists (l0 ++ l1)%list, (l0 ++ l1)%list. cbn [snd]. auto. }
  destruct (truthy q); cbn [negb].
  2:{ exists (l0 ++ l1)%list, (l0 ++ l1)%list. cbn [snd ret]. auto. }
  exists ((l0 ++ l1) ++ [Waste tok q])%list, (l0 ++ l1)%list.
  split; [|split; [exact Hlen | split; [exact Hnw | right; eauto]]].
  unfold cache_buster, http, bind, ret.
  destruct (server E (length (calls (tick_clock ws))) (Waste tok q))
    as [|? [data|]]; cbn; rewrite Hl1; rewrite <- !app_assoc; reflexivity.
Qed.

(** X15: in every world, one [get_waste_data] makes at most four network
    calls: up to three login and search calls, none of them to the waste
    endpoint, and then at most one call to the waste endpoint, which is the
    last. *)
Theorem get_waste_data_call_footprint :
  forall (L : PyLib) (E : Env) (address : string) (w : World),
    exists front,
      (length front <= 3)%nat /\ existsb is_waste front = false /\
      (calls (snd (get_waste_data L E address w)) = (calls w ++ front)%list \/
       exists tok q,
         calls (snd (get_waste_data L E address w))
         = (calls w ++ front ++ [Waste tok q])%list).
Proof.
  intros L E address w.
  destruct (get_waste_data_calls L E address w)
    as (l & front & Hl & Hlen & Hnw & [-> | (tok & q & ->)]);
    exists front; (split; [exact Hlen | split; [exact Hnw|]]).
  - left. exact Hl.
  - right. exists tok, q. exact Hl.
Qed.


(** ** The refresh of one address, once more *)

(** X17: whatever goes wrong in a refresh comes out of
    [async_update_data_for_address] as an [UpdateFailed]: around the
    exception the fetch raised, around the exception the parser raised, or
    around one of the block's own two failures; and the update does
    nothing to the world beyond what [get_waste_data] did. *)
Theorem update_failure_causes :
  forall (L : PyLib) (E : Env) (address : string) (w : World),
    snd (async_update_data_for_address L E address w)
    = snd (get_waste_data L E address w) /\
    forall e,
      fst (async_update_data_for_address L E address w) = Raise e ->
      exists cause,
        e = UpdateFailed_from cause /\
        (fst (get_waste_data L E address w) = Raise cause \/
         exists data,
           fst (get_waste_data L E address w) = Ret data /\
           ((truthy data = false /\ cause = UpdateFailed_fetch) \/
            (truthy data = true /\
             parse_collection_dates data = Ret [] /\
             cause = UpdateFailed_no_dates) \/
            (truthy data = true /\
             parse_collection_dates data = Raise cause))).
Proof.
  intros L E address w.
  unfold async_update_data_for_address, update_body, bind, lift, ret, raise.
  destruct (get_waste_data L E address w) as [[data|e0] w'].
  - destruct (truthy data) eqn:Ht; cbn [negb].
    + destruct (parse_collection_dates data) as [[|p ps]|e1] eqn:Hp; cbn.
      * split; [reflexivity|]. intros e He. inversion He; subst.
        eexists. split; [reflexivity|]. right. exists data. split; [reflexivity | intuition auto].
      * split; [reflexivity|]. intros e He. discriminate.
      * split; [reflexivity|]. intros e He. inversion He; subst.
        eexists. split; [reflexivity|]. right. exists data. split; [reflexivity | intuition auto].
    + cbn. split; [reflexivity|]. intros e He. inversion He; subst.
      eexists. split; [reflexivity|]. right. exists data. split; [reflexivity | intuition auto].
  - cbn. split; [reflexivity|]. intros e He. inversion He; subst.
    eexists. split; [reflexivity|]. left. reflexivity.
Qed.

(** ** Identifiers *)

Lemma map_string_app :
  forall f a b,
    map_string f (a ++ b)%string = (map_string f a ++ map_string f b)%string.
Proof.
  induction a as [|c rest IH]; intros b; simpl;
    [reflexivity | rewrite IH; reflexivity].
Qed.

(** Lowering does not reach across an underscore. *)
Lemma lower_from_join :
  forall a b after_c3,
    lower_from after_c3 (a ++ String "_" b)%string
    = (lower_from after_c3 a ++ String "_" (lower_from false b))%string.
Proof.
  induction a as [|c rest IH]; intros b after_c3; simpl.
  - destruct after_c3; reflexivity.
  - rewrite IH. reflexivity.
Qed.

Lemma slug_join :
  forall a b,
    slug (a ++ " " ++ b)%string = (slug a ++ "_" ++ slug b)%string.
Proof.
  intros a b. unfold slug, py_lower. rewrite map_string_app.
  cbn [append map_string]. change (underscore " ") with "_"%char.
  apply lower_from_join.
Qed.

(** One byte of the normal form: a second pass changes nothing, the lead
    byte stays what it is, and neither a space nor an ASCII capital letter
    comes out. *)
Lemma slug_byte :
  forall (after_c3 : bool) (c : ascii),
    let d := lower_byte after_c3 (underscore c) in
    lower_byte after_c3 (underscore d) = d /\
    is_lead_c3 (underscore d) = is_lead_c3 (underscore c) /\
    d <> " "%char /\ in_range "A" "Z" d = false.
Proof.
  intros after_c3 [b0 b1 b2 b3 b4 b5 b6 b7].
  destruct after_c3, b0, b1, b2, b3, b4, b5, b6, b7;
    vm_compute; repeat split; discriminate.
Qed.

Lemma slug_from_idempotent :
  forall (s : string) (after_c3 : bool),
    lower_from after_c3
      (map_string underscore (lower_from after_c3 (map_string underscore s)))
    = lower_from after_c3 (map_string underscore s).
Proof.
  induction s as [|c rest IH]; intros after_c3;
    cbn [map_string lower_from]; [reflexivity|].
  destruct (slug_byte after_c3 c) as (H1 & H2 & _).
  rewrite H1, H2. f_equal. apply IH.
Qed.

Lemma slug_from_chars :
  forall (s : string) (after_c3 : bool) (c : ascii),
    In c (list_ascii_of_string
            (lower_from after_c3 (map_string underscore s))) ->
    c <> " "%char /\ in_range "A" "Z" c = false.
Proof.
  induction s as [|c0 rest IH]; intros after_c3 c Hin;
    cbn [map_string lower_from list_ascii_of_string In] in Hin;
    [contradiction|].
  destruct Hin as [<- | Hin]; [|exact (IH _ _ Hin)].
  destruct (slug_byte after_c3 c0) as (_ & _ & H4 & H5).
  split; assumption.
Qed.

(** X18: the normal form of the identifiers is stable, so an address
    and its normal form get the same config entry identifier, and it holds
    neither a space nor an ASCII capital letter. *)
Theorem slug_normal_form :
  forall (s : string),
    slug (slug s) = slug s /\
    config_unique_id (slug s) = config_unique_id s /\
    forall c,
      In c (list_ascii_of_string (slug s)) ->
      c <> " "%char /\ in_range "A" "Z" c = false.
Proof.
  intros s.
  assert (Hs : slug (slug s) = slug s)
    by (unfold slug, py_lower; apply slug_from_idempotent).
  split; [exact Hs|]. split.
  - unfold config_unique_id. rewrite Hs. reflexivity.
  - intros c Hin. unfold slug, py_lower in Hin.
    exact (slug_from_chars _ _ _ Hin).
Qed.

Lemma string_app_assoc :
  forall a b c : string, ((a ++ b) ++ c = a ++ (b ++ c))%string.
Proof.
  induction a as [|x rest IH]; intros b c; simpl;
    [reflexivity | rewrite IH; reflexivity].
Qed.

(** X20: the identifier of a sensor does not keep its three parts apart: a
    name that ends where an address begins gives the same identifier as the
    longer name with the shorter address, so two different sensors can
    have the same [unique_id]. *)
Theorem sensor_unique_id_parts_run_together :
  forall (a b c waste_type : string),
    sensor_unique_id (a ++ " " ++ b) c waste_type
    = sensor_unique_id a (b ++ " " ++ c) waste_type.
Proof.
  intros a b c waste_type. unfold sensor_unique_id.
  rewrite !slug_join. rewrite !string_app_assoc. reflexivity.
Qed.

(** ** Days until pickup *)

Lemma days_before_month_step :
  forall y m,
    1 <= m <= 11 ->
    days_before_month y (m + 1) = days_before_month y m + days_in_month y m.
Proof.
  intros y m Hm.
  assert (Hcases : m = 1 \/ m = 2 \/ m = 3 \/ m = 4 \/ m = 5 \/ m = 6 \/
                   m = 7 \/ m = 8 \/ m = 9 \/ m = 10 \/ m = 11) by lia.
  unfold days_before_month, days_in_month.
  repeat (destruct Hcases as [-> | Hcases]); [.. | subst m];
    cbn; destruct (is_leap y); reflexivity.
Qed.

Lemma days_in_month_pos : forall y m, 28 <= days_in_month y m.
Proof.
  intros y m. unfold days_in_month.
  destruct (m =? 2); [destruct (is_leap y); lia|].
  destruct ((m =? 4) || (m =? 6) || (m =? 9) || (m =? 11)); lia.
Qed.

(** The days before a later month include the whole of an earlier one. *)
Lemma days_before_month_mono :
  forall y m m',
    1 <= m -> m < m' -> m' <= 12 ->
    days_before_month y m + days_in_month y m <= days_before_month y m'.
Proof.
  intros y m m' Hlo Hlt Hhi.
  assert (Hgen : forall k : nat,
             m + 1 + Z.of_nat k <= 12 ->
             days_before_month y m + days_in_month y m
             <= days_before_month y (m + 1 + Z.of_nat k)).
  { induction k as [|k IH]; intros Hk.
    - rewrite Z.add_0_r. rewrite days_before_month_step by lia. lia.
    - replace (m + 1 + Z.of_nat (S k)) with ((m + 1 + Z.of_nat k) + 1) by lia.
      rewrite days_before_month_step by lia.
      pose proof (days_in_month_pos y (m + 1 + Z.of_nat k)).
      specialize (IH ltac:(lia)). lia. }
  specialize (Hgen (Z.to_nat (m' - m - 1))).
  replace (m + 1 + Z.of_nat (Z.to_nat (m' - m - 1))) with m' in Hgen by lia.
  apply Hgen. lia.
Qed.

Lemma days_before_month_nonneg :
  forall y m, 0 <= days_before_month y m.
Proof.
  intros y m. unfold days_before_month.
  repeat match goal with
         | |- context [if ?c then _ else _] => destruct c
         end; lia.
Qed.

Lemma year_length :
  forall y,
    days_before_year (y + 1)
    = days_before_year y + 365 + (if is_leap y then 1 else 0).
Proof.
  intros y. unfold days_before_year, is_leap.
  replace (y + 1 - 1) with y by lia.
  destruct (Z.eqb_spec (y mod 4) 0); destruct (Z.eqb_spec (y mod 100) 0);
    destruct (Z.eqb_spec (y mod 400) 0); cbn [andb orb negb];
    Z.div_mod_to_equations; lia.
Qed.

Lemma days_before_year_mono :
  forall y y', y <= y' -> days_before_year y <= days_before_year y'.
Proof.
  intros y y' H. unfold days_before_year. Z.div_mod_to_equations. lia.
Qed.

Lemma day_of_year_bound :
  forall y m d,
    valid_date y m d = true ->
    1 <= days_before_month y m + d <= 365 + (if is_leap y then 1 else 0).
Proof.
  intros y m d H. unfold valid_date in H.
  repeat (apply andb_prop in H; destruct H as [H ?]).
  pose proof (days_before_month_nonneg y m). split; [lia|].
  destruct (Z.eq_dec m 12) as [-> | Hne].
  - unfold days_before_month, days_in_month in *. cbn in *.
    destruct (is_leap y); lia.
  - pose proof (days_before_month_mono y m 12 ltac:(lia) ltac:(lia) ltac:(lia)).
    assert (days_before_month y 12 + 31
            = 365 + (if is_leap y then 1 else 0)).
    { unfold days_before_month. cbn. destruct (is_leap y); lia. }
    lia.
Qed.

Lemma toordinal_lt :
  forall a b,
    is_valid a -> is_valid b -> date_lt a b -> toordinal a < toordinal b.
Proof.
  intros [ya ma da] [yb mb db] Ha Hb Hlt.
  unfold is_valid, date_lt, toordinal in *. cbn [year month day] in *.
  pose proof (day_of_year_bound _ _ _ Ha) as Ba.
  pose proof (day_of_year_bound _ _ _ Hb) as Bb.
  destruct Hlt as [Hy | [-> [Hm | [-> Hd]]]].
  - pose proof (year_length ya).
    pose proof (days_before_year_mono (ya + 1) yb ltac:(lia)). lia.
  - unfold valid_date in Ha, Hb.
    repeat (apply andb_prop in Ha; destruct Ha as [Ha ?]).
    repeat (apply andb_prop in Hb; destruct Hb as [Hb ?]).
    pose proof (days_before_month_mono yb ma mb ltac:(lia) Hm ltac:(lia)).
    lia.
  - lia.
Qed.

Lemma date_trichotomy :
  forall a b : date, date_lt a b \/ a = b \/ date_lt b a.
Proof.
  intros [ya ma da] [yb mb db]. unfold date_lt. cbn [year month day].
  destruct (Z.lt_trichotomy ya yb) as [H | [-> | H]]; [auto | | auto].
  destruct (Z.lt_trichotomy ma mb) as [H | [-> | H]]; [auto | | auto 6].
  destruct (Z.lt_trichotomy da db) as [H | [-> | H]]; auto 8.
Qed.

(** X21: for dates of the calendar, the attribute [days_until_pickup] is
    negative exactly when the collection date is before today, zero exactly
    when it is today, and positive exactly when it is after today. *)
Theorem days_until_pickup_sign :
  forall (collection_date today : date),
    is_valid collection_date -> is_valid today ->
    (days_until_pickup collection_date today < 0
     <-> date_lt collection_date today) /\
    (days_until_pickup collection_date today = 0
     <-> collection_date = today) /\
    (0 < days_until_pickup collection_date today
     <-> date_lt today collection_date).
Proof.
  intros c t Hc Ht. unfold days_until_pickup.
  pose proof (toordinal_lt c t Hc Ht) as Hlt.
  pose proof (toordinal_lt t c Ht Hc) as Hgt.
  assert (Hsame : c = t -> toordinal c = toordinal t) by (intros ->; reflexivity).
  destruct (date_trichotomy c t) as [H | [H | H]];
    [pose proof (Hlt H) | pose proof (Hsame H) | pose proof (Hgt H)];
    (split; [|split]); (split; intros X);
    try (pose proof (Hlt X)); try (pose proof (Hgt X));
    try (pose proof (Hsame X));
    first [assumption | lia | exfalso; lia].
Qed.

(** ** The entities *)

Lemma kd_get_None_In :
  forall A (d : list (value * A)) k k' v,
    kd_get k d = None -> In (k', v) d -> key_eqb k' k = false.
Proof.
  induction d as [|[k0 v0] rest IH]; intros k k' v Hg Hin; simpl in *.
  - contradiction.
  - destruct (key_eqb k0 k) eqn:H0; [discriminate|].
    destruct Hin as [Heq | Hin].
    + inversion Heq; subst. exact H0.
    + eapply IH; eassumption.
Qed.

Lemma kd_get_In_distinct :
  forall A (d : list (value * A)) k v,
    keys_distinct d -> In (k, v) d -> key_eqb k k = true ->
    kd_get k d = Some v.
Proof.
  induction d as [|[k0 v0] rest IH]; intros k v Hd Hin Hk; simpl in *.
  - contradiction.
  - destruct Hd as [H0 Hrest]. destruct Hin as [Heq | Hin].
    + inversion Heq; subst. rewrite Hk. reflexivity.
    + pose proof (kd_get_None_In _ _ _ _ _ H0 Hin) as Hne.
      rewrite key_eqb_sym, Hne. apply IH; assumption.
Qed.

Lemma setup_entities_text :
  forall base address parsed,
    (forall k d, In (k, d) parsed -> is_text k = true) ->
    exists sensors,
      setup_entities base address parsed = Ret sensors /\
      map (fun s => VStr (_waste_type s)) sensors = map fst parsed /\
      Forall (fun s => _base_name s = base /\ _address s = address /\
                       _attr_unique_id s
                       = sensor_unique_id base address (_waste_type s))
             sensors.
Proof.
  induction parsed as [|[k d] rest IH]; intros Htext; simpl.
  - exists []. repeat split. constructor.
  - destruct (IH (fun k0 d0 H => Htext k0 d0 (or_intror H)))
      as (sensors & -> & Hmap & Hall).
    pose proof (Htext k d (or_introl eq_refl)) as Hk.
    destruct k; try discriminate. cbn.
    eexists. split; [reflexivity|]. cbn. split; [rewrite Hmap; reflexivity|].
    constructor; [repeat split | exact Hall].
Qed.

(** X22: when every title of the parsed dates is a string,
    [async_setup_entry] creates one sensor per title, in the order of the
    mapping, each with the name and address of the entry and the
    identifier built from the three; and each sensor's [native_value] on
    that data is the date parsed for its title. *)
Theorem setup_entities_one_per_title :
  forall (base address : string) (parsed : list (value * date))
         (raw : value),
    (forall k d, In (k, d) parsed -> is_text k = true) ->
    keys_distinct parsed ->
    exists sensors,
      setup_entities base address parsed = Ret sensors /\
      map (fun s => VStr (_waste_type s)) sensors = map fst parsed /\
      forall s,
        In s sensors ->
        _base_name s = base /\ _address s = address /\
        _attr_unique_id s = sensor_unique_id base address (_waste_type s) /\
        exists d,
          In (VStr (_waste_type s), d) parsed /\
          native_value s (parsed, raw) = Some d.
Proof.
  intros base address parsed raw Htext Hd.
  destruct (setup_entities_text base address parsed Htext)
    as (sensors & Hrun & Hmap & Hall).
  exists sensors. split; [exact Hrun|]. split; [exact Hmap|].
  intros s Hin. rewrite Forall_forall in Hall.
  destruct (Hall s Hin) as (H1 & H2 & H3). repeat split; try assumption.
  assert (Hkey : In (VStr (_waste_type s)) (map fst parsed)).
  { rewrite <- Hmap. apply (in_map (fun s => VStr (_waste_type s))). exact Hin. }
  apply in_map_iff in Hkey as ([k d] & Hk & Hkd). cbn in Hk. subst k.
  exists d. split; [exact Hkd|].
  unfold native_value. cbn [fst].
  apply kd_get_In_distinct; [exact Hd | exact Hkd | apply String.eqb_refl].
Qed.

(** X23: a title of the parsed dates that is not a string (a number the
    vendor sent as a title) makes the loop of [async_setup_entry] raise
    [AttributeError]: the identifier of the sensor calls [replace] on
    it. *)
Theorem setup_entities_non_text_title_raises :
  forall (base address : string) (parsed : list (value * date))
         (k : value) (d : date),
    In (k, d) parsed -> is_text k = false ->
    setup_entities base address parsed = Raise AttributeError.
Proof.
  intros base address parsed k d Hin Hk.
  induction parsed as [|[k0 d0] rest IH]; simpl; [contradiction|].
  destruct (is_text k0) eqn:H0.
  - destruct k0; try discriminate. cbn.
    destruct Hin as [Heq | Hin].
    + inversion Heq; subst. discriminate.
    + rewrite (IH Hin). reflexivity.
  - destruct k0; try discriminate; reflexivity.
Qed.

Lemma parse_services_objects :
  forall services dates dates',
    parse_services dates services = Ret dates' ->
    Forall (fun e => is_object e = true) services.
Proof.
  induction services as [|e rest IH]; intros dates dates' H; simpl in H.
  - constructor.
  - destruct (parse_service dates e) as [mid|] eqn:He; [|discriminate].
    constructor; [|eapply IH; exact H].
    unfold parse_service, py_get, py_get_default in He.
    destruct e; try discriminate. reflexivity.
Qed.

(** On objects the loop over the services returns, with the attributes it
    was given or with the three bin attributes set on top of them. *)
Lemma bin_attributes_objects :
  forall waste_type services attributes,
    Forall (fun e => is_object e = true) services ->
    exists attrs,
      bin_attributes waste_type attributes services = Ret attrs /\
      (attrs = attributes \/
       exists size unit_ frequency,
         attrs = assoc_set "pickup_frequency_description" frequency
                   (assoc_set "bin_size_unit" unit_
                      (assoc_set "bin_size" size attributes))).
Proof.
  induction services as [|e rest IH]; intros attributes Hall; simpl.
  - eexists. split; [reflexivity | left; reflexivity].
  - inversion Hall as [|? ? He Hrest]; subst.
    destruct e; try discriminate. cbn.
    destruct (equals_text _ waste_type).
    + eexists. split; [reflexivity|]. right. eauto.
    + apply IH. exact Hrest.
Qed.

(** X24: on the data of a refresh whose parse returned,
    [extra_state_attributes] does not raise; for a sensor without a date in
    that data it is empty, and for a sensor with a date it holds the days
    until pickup counted from today, the formatted date and the waste
    type. *)
Theorem extra_state_attributes_after_parse :
  forall (strftime_ymd : date -> string) (today : date) (s : sensor)
         (raw : value) (parsed : list (value * date)),
    parse_collection_dates raw = Ret parsed ->
    exists attrs,
      extra_state_attributes strftime_ymd today s (parsed, raw) = Ret attrs /\
      match native_value s (parsed, raw) with
      | Some d =>
          assoc "days_until_pickup" attrs
          = Some (VInt (days_until_pickup d today)) /\
          assoc "pickup_date" attrs = Some (VStr (strftime_ymd d)) /\
          assoc "waste_type" attrs = Some (VStr (_waste_type s))
      | None => attrs = []
      end.
Proof.
  intros fmt today s raw parsed Hparse.
  unfold extra_state_attributes, native_value. cbn [fst snd].
  destruct (kd_get (VStr (_waste_type s)) parsed) as [d|] eqn:Hget.
  2:{ exists []. split; reflexivity. }
  unfold parse_collection_dates, py_get, py_get_default in Hparse.
  destruct raw as [| | | | |kvs]; try discriminate.
  unfold py_get_default.
  destruct (assoc "services" kvs) as [[| | | |l|]|];
    try (inversion Hparse; subst; discriminate).
  cbn [py_iter].
  destruct (bin_attributes_objects (_waste_type s) l
              [("days_until_pickup", VInt (days_until_pickup d today));
               ("pickup_date", VStr (fmt d));
               ("waste_type", VStr (_waste_type s))]
              (parse_services_objects _ _ _ Hparse))
    as (attrs & -> & [-> | (size & unit_ & frequency & ->)]);
    eexists; (split; [reflexivity|]); repeat split.
Qed.

(** * The further properties at work *)

Lemma parse_collection_dates_records_ok_witness :
  parse_collection_dates main_st_services
  = Ret [(VStr "Restavfall", mkDate 2025 3 10)] /\
  (truthy (VStr "Restavfall") = true /\
   hashable (VStr "Restavfall") = true /\
   valid_date 2025 3 10 = true).
Proof.
  split; [reflexivity|].
  apply (parse_collection_dates_records_ok main_st_services
           [(VStr "Restavfall", mkDate 2025 3 10)] eq_refl
           (VStr "Restavfall") (mkDate 2025 3 10)).
  left. reflexivity.
Defined.

Lemma parse_collection_dates_titles_distinct_witness :
  parse_collection_dates
    (VDict [("services",
             VList [VDict [("title", VStr "Paper");
                           ("nextPickup", VStr "2024-01-01")];
                    VDict [("title", VStr "Paper");
                           ("nextPickup", VStr "2024-01-15")]])])
  = Ret [(VStr "Paper", mkDate 2024 1 15)] /\
  keys_distinct [(VStr "Paper", mkDate 2024 1 15)].
Proof.
  split; [reflexivity|].
  apply (parse_collection_dates_titles_distinct
           (VDict [("services",
                    VList [VDict [("title", VStr "Paper");
                                  ("nextPickup", VStr "2024-01-01")];
                           VDict [("title", VStr "Paper");
                                  ("nextPickup", VStr "2024-01-15")]])])).
  reflexivity.
Defined.

Lemma parse_collection_dates_non_text_pickup_raises_witness :
  parse_collection_dates
    (VDict [("services",
             VList [VDict [("title", VStr "Paper");
                           ("nextPickup", VStr "2024-01-01")];
                    VDict [("title", VStr "Food");
                           ("nextPickup", VInt 20240101)]])])
  = Raise TypeError.
Proof.
  apply (parse_collection_dates_non_text_pickup_raises
           [("services",
             VList [VDict [("title", VStr "Paper");
                           ("nextPickup", VStr "2024-01-01")];
                    VDict [("title", VStr "Food");
                           ("nextPickup", VInt 20240101)]])]
           [VDict [("title", VStr "Paper");
                   ("nextPickup", VStr "2024-01-01")]]
           []
           [(VStr "Paper", mkDate 2024 1 1)]
           [("title", VStr "Food"); ("nextPickup", VInt 20240101)]
           (VStr "Food") (VInt 20240101));
    reflexivity.
Defined.

Lemma parse_collection_dates_non_object_entry_raises_witness :
  parse_collection_dates
    (VDict [("services",
             VList [VDict [("title", VStr "Paper");
                           ("nextPickup", VStr "2024-01-01")];
                    VStr "Food"])])
  = Raise AttributeError.
Proof.
  apply (parse_collection_dates_non_object_entry_raises
           [("services",
             VList [VDict [("title", VStr "Paper");
                           ("nextPickup", VStr "2024-01-01")];
                    VStr "Food"])]
           [VDict [("title", VStr "Paper");
                   ("nextPickup", VStr "2024-01-01")]]
           []
           [(VStr "Paper", mkDate 2024 1 1)]
           (VStr "Food"));
    reflexivity.
Defined.

Lemma strptime_ymd_exact_shape_witness :
  strptime_ymd "2024-02-29" = Some (mkDate 2024 2 29) /\
  strptime_ymd "2023-02-29" = None.
Proof.
  split.
  - exact (strptime_ymd_exact_shape "2" "0" "2" "4" "0" "2" "2" "9"
             eq_refl eq_refl eq_refl eq_refl eq_refl eq_refl eq_refl eq_refl).
  - exact (strptime_ymd_exact_shape "2" "0" "2" "3" "0" "2" "2" "9"
             eq_refl eq_refl eq_refl eq_refl eq_refl eq_refl eq_refl eq_refl).
Defined.

Lemma get_auth_token_none_or_truthy_witness :
  fst (_get_auth_token lib (offline now) (cached (token_doc noon)))
  = Ret (VStr "header.payload.signature") /\
  (VStr "header.payload.signature" = VNone \/
   truthy (VStr "header.payload.signature") = true).
Proof.
  split; [reflexivity|].
  apply (get_auth_token_none_or_truthy lib (offline now)
           (cached (token_doc noon))).
  reflexivity.
Defined.

Lemma get_auth_token_failure_changes_nothing_witness :
  fst (_get_auth_token lib (offline noon_instant) (cached (token_doc noon)))
  = Ret VNone /\
  disk (snd (_get_auth_token lib (offline noon_instant)
               (cached (token_doc noon))))
  = Some (Json (VDict (token_doc noon))).
Proof.
  split; [reflexivity|].
  apply (get_auth_token_failure_changes_nothing lib (offline noon_instant)
           (cached (token_doc noon))).
  reflexivity.
Defined.

Lemma get_auth_token_login_persists_witness :
  fst (_get_auth_token lib (online now) (world None))
  = Ret (VStr "header.payload.signature") /\
  calls (snd (_get_auth_token lib (online now) (world None))) = [Login] /\
  disk (snd (_get_auth_token lib (online now) (world None)))
  = Some (Json (VDict [("token", VStr "header.payload.signature");
                       ("token_expiration_time",
                        VStr "2025-03-10T11:55:00+00:00")])).
Proof.
  destruct (get_auth_token_login_persists lib (online now) (world None)
              (world None) [] " header.payload.signature " None
              eq_refl eq_refl eq_refl)
    as (H1 & H2 & H3 & _).
  - vm_compute. discriminate.
  - reflexivity.
  - split; [exact H1|]. split; [exact H2 | exact H3].
Defined.

Lemma get_auth_token_reuses_persisted_token_witness :
  fst (_get_auth_token lib (online now)
         (snd (_get_auth_token lib (online now) (world None))))
  = Ret (VStr "header.payload.signature") /\
  calls (snd (_get_auth_token lib (online now)
                (snd (_get_auth_token lib (online now) (world None)))))
  = [Login].
Proof.
  apply (get_auth_token_reuses_persisted_token lib (online now) (world None)
           (world None) [] " header.payload.signature " None
           (utc (noon_instant - minutes 5))).
  - reflexivity.
  - reflexivity.
  - reflexivity.
  - vm_compute. discriminate.
  - reflexivity.
  - reflexivity.
  - vm_compute. discriminate.
  - reflexivity.
  - reflexivity.
  - reflexivity.
Defined.

Lemma search_building_id_failure_caches_nothing_witness :
  succeeded (fst (search_building_id lib (offline now) "Main St 1"
                    (cached (token_doc noon)))) = false /\
  disk (snd (search_building_id lib (offline now) "Main St 1"
               (cached (token_doc noon))))
  = Some (Json (VDict (token_doc noon))).
Proof.
  split; [reflexivity|].
  apply (search_building_id_failure_caches_nothing lib (offline now)
           "Main St 1" (cached (token_doc noon))).
  reflexivity.
Defined.

Lemma search_building_id_non_object_result_raises_witness :
  fst (search_building_id lib
         (env now Written
            (fun _ => Response "" (Some (VList [VStr "B123"]))))
         "Main St 1" (cached (token_doc noon)))
  = Raise AttributeError.
Proof.
  apply (search_building_id_non_object_result_raises lib
           (env now Written
              (fun _ => Response "" (Some (VList [VStr "B123"]))))
           (cached (token_doc noon)) (token_doc noon)
           (VStr "header.payload.signature") (utc noon_instant)
           "Main St 1" "" (VStr "B123") []).
  - apply loads_cached.
  - reflexivity.
  - apply (holds_token_doc []).
  - reflexivity.
  - reflexivity.
  - reflexivity.
  - reflexivity.
Defined.

Lemma search_building_id_upsert_keeps_the_rest_witness :
  exists kvs',
    disk (snd (search_building_id lib (online now) "Side St 2"
                 (cached (full_doc noon this_morning))))
    = Some (Json (VDict kvs')) /\
    assoc "token" kvs' = Some (VStr "header.payload.signature") /\
    building_entry kvs' "Main St 1"
    = Some (VDict [("query_param", VStr "B123");
                   ("last_updated", VStr this_morning)]).
Proof.
  destruct (search_building_id_upsert_keeps_the_rest lib (online now)
              (cached (full_doc noon this_morning))
              (snd (search_building_id lib (online now) "Side St 2"
                      (cached (full_doc noon this_morning))))
              (full_doc noon this_morning)
              (VStr "header.payload.signature") (utc noon_instant)
              "Side St 2" (VStr "B123"))
    as (kvs' & Hd & Ht & _ & Hother & _).
  - apply loads_cached.
  - reflexivity.
  - apply holds_token_doc.
  - reflexivity.
  - reflexivity.
  - reflexivity.
  - vm_compute. discriminate.
  - reflexivity.
  - exists kvs'. split; [exact Hd|]. split; [exact Ht|].
    rewrite (Hother "Main St 1") by discriminate. reflexivity.
Defined.


Lemma update_failure_causes_witness :
  fst (async_update_data_for_address lib (offline noon_instant) "Main St 1"
         (cached (token_doc noon)))
  = Raise (UpdateFailed_from UpdateFailed_fetch) /\
  exists cause,
    UpdateFailed_from UpdateFailed_fetch = UpdateFailed_from cause /\
    (fst (get_waste_data lib (offline noon_instant) "Main St 1"
            (cached (token_doc noon))) = Raise cause \/
     exists data,
       fst (get_waste_data lib (offline noon_instant) "Main St 1"
              (cached (token_doc noon))) = Ret data /\
       ((truthy data = false /\ cause = UpdateFailed_fetch) \/
        (truthy data = true /\
         parse_collection_dates data = Ret [] /\
         cause = UpdateFailed_no_dates) \/
        (truthy data = true /\
         parse_collection_dates data = Raise cause))).
Proof.
  split; [reflexivity|].
  apply (proj2 (update_failure_causes lib (offline noon_instant) "Main St 1"
                  (cached (token_doc noon)))).
  reflexivity.
Defined.

Lemma slug_normal_form_witness :
  slug "Ängsvägen 1 B" = "ängsvägen_1_b" /\
  slug (slug "Ängsvägen 1 B") = slug "Ängsvägen 1 B" /\
  config_unique_id "ängsvägen_1_b" = config_unique_id "Ängsvägen 1 B".
Proof.
  destruct (slug_normal_form "Ängsvägen 1 B") as (H1 & H2 & _).
  split; [reflexivity|]. split; [exact H1 | exact H2].
Defined.

Lemma days_until_pickup_sign_witness :
  days_until_pickup (mkDate 2025 2 28) (mkDate 2025 3 1) = -1 /\
  date_lt (mkDate 2025 2 28) (mkDate 2025 3 1).
Proof.
  split; [reflexivity|].
  apply (proj1 (days_until_pickup_sign (mkDate 2025 2 28) (mkDate 2025 3 1)
                  eq_refl eq_refl)).
  reflexivity.
Defined.

Lemma setup_entities_one_per_title_witness :
  exists sensors,
    setup_entities "Home" "Main St 1"
      [(VStr "Paper", mkDate 2024 1 1); (VStr "Glass", mkDate 2024 1 8)]
    = Ret sensors /\
    map (fun s => VStr (_waste_type s)) sensors
    = [VStr "Paper"; VStr "Glass"].
Proof.
  destruct (setup_entities_one_per_title "Home" "Main St 1"
              [(VStr "Paper", mkDate 2024 1 1);
               (VStr "Glass", mkDate 2024 1 8)] VNone)
    as (sensors & Hrun & Hmap & _).
  - intros k d [H | [H | []]]; inversion H; reflexivity.
  - cbn. repeat split.
  - exists sensors. split; [exact Hrun | exact Hmap].
Defined.

Lemma setup_entities_non_text_title_raises_witness :
  parse_collection_dates
    (VDict [("services",
             VList [VDict [("title", VInt 5);
                           ("nextPickup", VStr "2024-01-01")]])])
  = Ret [(VInt 5, mkDate 2024 1 1)] /\
  setup_entities "Home" "Main St 1" [(VInt 5, mkDate 2024 1 1)]
  = Raise AttributeError.
Proof.
  split; [reflexivity|].
  apply (setup_entities_non_text_title_raises "Home" "Main St 1"
           [(VInt 5, mkDate 2024 1 1)] (VInt 5) (mkDate 2024 1 1)).
  - left. reflexivity.
  - reflexivity.
Defined.

Lemma extra_state_attributes_after_parse_witness :
  exists attrs,
    extra_state_attributes date_text (mkDate 2025 3 8)
      (mkSensor "Home" "Main St 1" "Restavfall"
         (sensor_unique_id "Home" "Main St 1" "Restavfall"))
      ([(VStr "Restavfall", mkDate 2025 3 10)], main_st_services)
    = Ret attrs /\
    assoc "days_until_pickup" attrs = Some (VInt 2) /\
    assoc "pickup_date" attrs = Some (VStr "2025-03-10") /\
    assoc "waste_type" attrs = Some (VStr "Restavfall").
Proof.
  destruct (extra_state_attributes_after_parse date_text (mkDate 2025 3 8)
              (mkSensor "Home" "Main St 1" "Restavfall"
                 (sensor_unique_id "Home" "Main St 1" "Restavfall"))
              main_st_services
              [(VStr "Restavfall", mkDate 2025 3 10)] eq_refl)
    as (attrs & Hrun & Hattrs).
  exists attrs. split; [exact Hrun | exact Hattrs].
Defined.

(** ** Two more runs of the token manager *)

(** X25: a cache file that holds valid JSON which is not an object (a
    list, a string, a number, [null]) makes [_get_auth_token] raise
    [AttributeError] before any network call: the load hands the value
    over as it is, and [cache_data.get] is not there. *)
Theorem get_auth_token_non_object_document_raises :
  forall (L : PyLib) (E : Env) (w : World) (doc : value),
    loads E w doc -> is_object doc = false ->
    _get_auth_token L E w = (Raise AttributeError, tick_read w).
Proof.
  intros L E w doc Hl Hno. unfold _get_auth_token, bind.
  rewrite (load_cache_data_loads _ _ _ Hl).
  unfold lift, py_get, py_get_default.
  destruct doc; try discriminate; reflexivity.
Qed.

Lemma get_auth_token_refresh_run :
  forall L E w kvs token t text body,
    loads E w (VDict kvs) -> holds_token L kvs token t ->
    instant t <= clock E (clock_reads w) ->
    server E (length (calls w)) Login = Response text body ->
    strip text <> ""%string ->
    write_outcome_at E (file_writes w) = Written ->
    exists wf,
      _get_auth_token L E w = (Ret (VStr (strip text)), wf) /\
      calls wf = (calls w ++ [Login])%list /\
      disk wf
      = Some (Json (VDict (with_token L kvs (strip text)
                             (login_expiry L (strip text)
                                (clock E (S (clock_reads w))))))).
Proof.
  intros L E w kvs token t text body Hl
         (Htok & Htruthy & s & Hs & Hne & Hiso) Hge Hsrv Htext Hwr.
  unfold _get_auth_token, bind.
  rewrite (load_cache_data_loads _ _ _ Hl).
  unfold lift, py_get, py_get_default. rewrite Htok, Hs.
  rewrite (truthy_text _ Hne). unfold parse_timestamp, bind. rewrite Hiso.
  unfold ret. rewrite Htruthy. unfold now_utc.
  rewrite instant_utc, instant_assume_utc. cbn [clock_reads tick_read].
  apply Z.ltb_ge in Hge. rewrite Hge.
  unfold http. cbn [calls tick_clock tick_read]. rewrite Hsrv.
  destruct (String.eqb_spec (strip text) ""); [contradiction|].
  unfold login_expiry, with_token, py_setitem, _save_cache_data.
  destruct (jwt_exp L (strip text)); cbn; rewrite Hwr;
    eexists; (split; [reflexivity|]); cbn;
    repeat split; repeat f_equal; unfold dt_add, utc; cbn; f_equal; lia.
Qed.

(** X26: when the cached token has expired, a login that answers with a
    non-blank body makes [_get_auth_token] return the new token, with the
    login call as its only call, and, the write succeeding, the cache file
    holds the new token and its expiration time while the building entry of
    every address is as it was. *)
Theorem get_auth_token_refresh_keeps_buildings :
  forall (L : PyLib) (E : Env) (w : World) (kvs : list (string * value))
         (token : value) (t : datetime) (text : string)
         (body : option value),
    loads E w (VDict kvs) -> holds_token L kvs token t ->
    instant t <= clock E (clock_reads w) ->
    server E (length (calls w)) Login = Response text body ->
    strip text <> ""%string ->
    write_outcome_at E (file_writes w) = Written ->
    fst (_get_auth_token L E w) = Ret (VStr (strip text)) /\
    calls (snd (_get_auth_token L E w)) = (calls w ++ [Login])%list /\
    exists kvs',
      disk (snd (_get_auth_token L E w)) = Some (Json (VDict kvs')) /\
      assoc "token" kvs' = Some (VStr (strip text)) /\
      assoc "token_expiration_time" kvs'
      = Some (VStr (isoformat L
                      (utc (login_expiry L (strip text)
                              (clock E (S (clock_reads w))))))) /\
      forall address, building_entry kvs' address = building_entry kvs address.
Proof.
  intros L E w kvs token t text body Hl Ht Hge Hsrv Htext Hwr.
  destruct (get_auth_token_refresh_run
              L E w kvs token t text body Hl Ht Hge Hsrv Htext Hwr)
    as (wf & -> & Hc & Hd).
  cbn [fst snd]. split; [reflexivity|]. split; [exact Hc|].
  eexists. split; [exact Hd|]. unfold with_token. split; [|split].
  - rewrite assoc_set_other by discriminate. apply assoc_set_same.
  - apply assoc_set_same.
  - intros address. unfold building_entry.
    rewrite !assoc_set_other by discriminate. reflexivity.
Qed.

Lemma get_auth_token_non_object_document_raises_witness :
  fst (_get_auth_token lib (online now) (world (Some (Json (VList [])))))
  = Raise AttributeError /\
  calls (snd (_get_auth_token lib (online now)
                (world (Some (Json (VList [])))))) = [].
Proof.
  rewrite (get_auth_token_non_object_document_raises lib (online now)
             (world (Some (Json (VList [])))) (VList [])).
  - split; reflexivity.
  - split; reflexivity.
  - reflexivity.
Defined.

Lemma get_auth_token_refresh_keeps_buildings_witness :
  fst (_get_auth_token lib (online noon_instant)
         (cached (full_doc noon this_morning)))
  = Ret (VStr "header.payload.signature") /\
  calls (snd (_get_auth_token lib (online noon_instant)
                (cached (full_doc noon this_morning))))
  = [Login].
Proof.
  destruct (get_auth_token_refresh_keeps_buildings lib (online noon_instant)
              (cached (full_doc noon this_morning))
              (full_doc noon this_morning)
              (VStr "header.payload.signature") (utc noon_instant)
              " header.payload.signature " None)
    as (H1 & H2 & _).
  - apply loads_cached.
  - apply holds_token_doc.
  - cbn. discriminate.
  - reflexivity.
  - vm_compute. discriminate.
  - reflexivity.
  - split; [exact H1 | exact H2].
Defined.
